(** * Message-format translator: Anthropic content blocks <-> OpenAI chat completions

    Shallow embedding of [src/api/transform/openai-format.ts]:
    [getImageUrl], [convertToOpenAiMessages] (forward direction) and
    [convertToAnthropicMessage] (reverse direction).

    Conventions of the embedding.
    - JavaScript strings are [string]; a string-literal union (roles, finish
      reasons, stop reasons, [type] tags that are read back) is a [string]
      compared with [String.eqb], as [===] does.
    - An optional or nullable field is an [option]; [None] stands for
      [undefined]/[null] ("absent").
    - [Array.prototype.push] appends at the end ([l ++ [x]]); [reduce] and
      [forEach] are [fold_left]; a [map] whose callback mutates a captured
      variable threads that variable explicitly.
    - Token counts are integers ([Z]); [x || 0] is written out.
    - [console.error] appends to an explicit console; a thrown exception is
      the [inl] of a sum. *)

From Stdlib Require Import List String Ascii ZArith Lia Bool DecimalString.
Import ListNotations.

#[local] Open Scope string_scope.
#[local] Open Scope list_scope.

(** ** JSON values

    The [unknown] carried by a tool invocation's [input].  A number is kept
    as the exact decimal [mantissa * 10 ^ exponent] its literal denotes. *)

#[local] Set Warnings "-register-all".

Inductive json : Type :=
| JNull
| JBool (b : bool)
| JNumber (mantissa exponent : Z)
| JString (s : string)
| JArray (elements : list json)
| JObject (members : list (string * json)).

(** The object literal [{}]. *)
Definition empty_object : json := JObject [].

(** ** JavaScript helpers *)

(** The one-character string ["\n"]. *)
Definition newline : string := String (ascii_of_nat 10) EmptyString.

(** [Array.prototype.join] on an array of strings. *)
Definition join (sep : string) (parts : list string) : string :=
  String.concat sep parts.

(** [s || d] for a string [s]: the empty string is falsy. *)
Definition string_or (s d : string) : string :=
  if String.eqb s "" then d else s.

(** [n || d] for an integer [n]: zero is falsy. *)
Definition number_or (n d : Z) : Z :=
  if Z.eqb n 0 then d else n.

(** ** Format A (Anthropic) *)

Module Anthropic.

Inductive ImageSource : Type :=
| Base64ImageSource (media_type data : string)   (* type: "base64" *)
| URLImageSource (url : string).                 (* type: "url" *)

Module TextBlockParam.
Record t : Type := { text : string }.          (* type: "text" *)
End TextBlockParam.

Module ImageBlockParam.
Record t : Type := { source : ImageSource }.   (* type: "image" *)
End ImageBlockParam.

(** [TextBlockParam | ImageBlockParam] *)
Inductive TextOrImage : Type :=
| TextPart (b : TextBlockParam.t)
| ImagePart (b : ImageBlockParam.t).

Module ToolUseBlockParam.
Record t : Type := { id : string; name : string; input : json }.
End ToolUseBlockParam.

(** [string | Array<TextBlockParam | ImageBlockParam>] *)
Inductive ToolResultContent : Type :=
| ResultString (s : string)
| ResultParts (parts : list TextOrImage).

Module ToolResultBlockParam.
Record t : Type :=
  { tool_use_id : string; content : option ToolResultContent }.
End ToolResultBlockParam.

(** The content blocks of a request turn, tagged by [type]. *)
Inductive ContentBlockParam : Type :=
| Text (b : TextBlockParam.t)
| Image (b : ImageBlockParam.t)
| ToolUse (b : ToolUseBlockParam.t)
| ToolResult (b : ToolResultBlockParam.t).

(** [string | Array<ContentBlockParam>] *)
Inductive MessageContent : Type :=
| ContentString (s : string)
| ContentBlocks (blocks : list ContentBlockParam).

Module MessageParam.
Record t : Type := { role : string; content : MessageContent }.
End MessageParam.

(** Blocks of a response message. *)
Inductive ContentBlock : Type :=
| TextBlock (text : string) (citations : option unit)
| ToolUseBlock (id name : string) (input : json).

Module Usage.
Record t : Type :=
  { input_tokens : Z;
    output_tokens : Z;
    cache_creation_input_tokens : Z;
    cache_read_input_tokens : Z }.
End Usage.

Module Message.
Record t : Type :=
  { id : string;
    type : string;
    role : string;
    content : list ContentBlock;
    model : string;
    stop_reason : option string;
    stop_sequence : option string;
    usage : Usage.t }.
End Message.

End Anthropic.

(** ** Format B (OpenAI) *)

Module OpenAI.

Module ImageURL.
Record t : Type := { url : string }.
End ImageURL.

(** [{type: "text", text} | {type: "image_url", image_url: {url}}] *)
Inductive ChatCompletionContentPart : Type :=
| ContentPartText (text : string)
| ContentPartImage (image_url : ImageURL.t).

Module Function.
Record t : Type := { name : string; arguments : string }.
End Function.

Module ChatCompletionMessageToolCall.
Record t : Type :=
  { id : string; type : string; function : Function.t }.
End ChatCompletionMessageToolCall.

(** [string | Array<ChatCompletionContentPart>] *)
Inductive Content : Type :=
| ContentString (s : string)
| ContentParts (parts : list ChatCompletionContentPart).

Module ChatCompletionMessageParam.
Record t : Type :=
  { role : string;
    content : option Content;
    tool_calls : option (list ChatCompletionMessageToolCall.t);
    tool_call_id : option string }.
End ChatCompletionMessageParam.

Module ChatCompletionMessage.
Record t : Type :=
  { role : string;
    content : option string;
    tool_calls : option (list ChatCompletionMessageToolCall.t) }.
End ChatCompletionMessage.

Module Choice.
Record t : Type :=
  { finish_reason : string; message : ChatCompletionMessage.t }.
End Choice.

Module CompletionUsage.
Record t : Type := { prompt_tokens : Z; completion_tokens : Z }.
End CompletionUsage.

Module ChatCompletion.
Record t : Type :=
  { id : string;
    choices : list Choice.t;
    model : string;
    usage : option CompletionUsage.t }.
End ChatCompletion.

End OpenAI.

Import Anthropic OpenAI.

(** ** Forward translator (format A -> format B) *)

(** The [type] tag of a block. *)
Definition block_type (block : ContentBlockParam) : string :=
  match block with
  | Text _ => "text"
  | Image _ => "image"
  | ToolUse _ => "tool_use"
  | ToolResult _ => "tool_result"
  end.

(** [isImageBlock] *)
Definition isImageBlock (block : ContentBlockParam) : bool :=
  String.eqb (block_type block) "image".

(** [isTextBlock] *)
Definition isTextBlock (block : ContentBlockParam) : bool :=
  String.eqb (block_type block) "text".

(** A block narrowed by [isTextBlock(part) || isImageBlock(part)]. *)
Definition asTextOrImage (block : ContentBlockParam) : option TextOrImage :=
  match block with
  | Text b => Some (TextPart b)
  | Image b => Some (ImagePart b)
  | ToolUse _ | ToolResult _ => None
  end.

(** [getImageUrl] *)
Definition getImageUrl (part : ImageBlockParam.t) : ChatCompletionContentPart :=
  match ImageBlockParam.source part with
  | Base64ImageSource media_type data =>
      ContentPartImage
        {| ImageURL.url := "data:" ++ media_type ++ ";base64," ++ data |}
  | URLImageSource url =>
      ContentPartImage {| ImageURL.url := url |}
  end.

(** The accumulator of the user-turn [reduce]. *)
Record UserPartition : Type :=
  { user_nonToolMessages : list TextOrImage;
    user_toolMessages : list ToolResultBlockParam.t }.

(** The accumulator of the assistant-turn [reduce]. *)
Record AssistantPartition : Type :=
  { assistant_nonToolMessages : list TextOrImage;
    assistant_toolMessages : list ToolUseBlockParam.t }.

(** Callback of the user-turn [reduce] (source lines 47-54). *)
Definition userReducer (acc : UserPartition) (part : ContentBlockParam)
  : UserPartition :=
  match part with
  | ToolResult b =>                      (* part.type === "tool_result" *)
      {| user_nonToolMessages := user_nonToolMessages acc;
         user_toolMessages := user_toolMessages acc ++ [b] |}
  | _ =>
      if isTextBlock part || isImageBlock part then
        match asTextOrImage part with
        | Some narrowed =>
            {| user_nonToolMessages := user_nonToolMessages acc ++ [narrowed];
               user_toolMessages := user_toolMessages acc |}
        | None => acc
        end
      else acc                           (* user cannot send tool_use messages *)
  end.

(** Callback of the assistant-turn [reduce] (source lines 117-124). *)
Definition assistantReducer (acc : AssistantPartition) (part : ContentBlockParam)
  : AssistantPartition :=
  match part with
  | ToolUse b =>                         (* part.type === "tool_use" *)
      {| assistant_nonToolMessages := assistant_nonToolMessages acc;
         assistant_toolMessages := assistant_toolMessages acc ++ [b] |}
  | _ =>
      if isTextBlock part || isImageBlock part then
        match asTextOrImage part with
        | Some narrowed =>
            {| assistant_nonToolMessages :=
                 assistant_nonToolMessages acc ++ [narrowed];
               assistant_toolMessages := assistant_toolMessages acc |}
        | None => acc
        end
      else acc                 (* assistant cannot send tool_result messages *)
  end.

(** The placeholder returned for an image inside a tool result. *)
Definition image_placeholder : string :=
  "(see following user message for image)".

(** Callback of the [map] over a tool result's parts (source lines 68-74);
    [toolResultImages] is the captured array it pushes to. *)
Definition toolResultPart (toolResultImages : list ImageBlockParam.t)
    (part : TextOrImage) : string * list ImageBlockParam.t :=
  match part with
  | ImagePart b => (image_placeholder, toolResultImages ++ [b])
  | TextPart b => (TextBlockParam.text b, toolResultImages)
  end.

(** [toolMessage.content.map(...)], threading [toolResultImages]. *)
Fixpoint mapToolResultParts (parts : list TextOrImage)
    (toolResultImages : list ImageBlockParam.t)
  : list string * list ImageBlockParam.t :=
  match parts with
  | [] => ([], toolResultImages)
  | part :: rest =>
      let (s, images1) := toolResultPart toolResultImages part in
      let (ss, images2) := mapToolResultParts rest images1 in
      (s :: ss, images2)
  end.

(** The [content] string computed for one tool result (source lines 61-76). *)
Definition toolResultContent (toolMessage : ToolResultBlockParam.t)
    (toolResultImages : list ImageBlockParam.t)
  : string * list ImageBlockParam.t :=
  match ToolResultBlockParam.content toolMessage with
  | Some (ResultString s) => (s, toolResultImages)
  | Some (ResultParts parts) =>
      let (ss, images) := mapToolResultParts parts toolResultImages in
      (join newline ss, images)
  | None => ("", toolResultImages)               (* ?? "" *)
  end.

(** State of the [forEach] over the tool results: the output array and
    [toolResultImages]. *)
Definition ToolLoopState : Type :=
  (list ChatCompletionMessageParam.t * list ImageBlockParam.t)%type.

(** Body of the [forEach] (source lines 60-82). *)
Definition toolResultStep (st : ToolLoopState)
    (toolMessage : ToolResultBlockParam.t) : ToolLoopState :=
  let (openAiMessages, toolResultImages) := st in
  let (content, images) := toolResultContent toolMessage toolResultImages in
  (openAiMessages ++
     [ {| ChatCompletionMessageParam.role := "tool";
          ChatCompletionMessageParam.content := Some (ContentString content);
          ChatCompletionMessageParam.tool_calls := None;
          ChatCompletionMessageParam.tool_call_id :=
            Some (ToolResultBlockParam.tool_use_id toolMessage) |} ],
   images).

(** Callback of the [map] over the user turn's text/image blocks
    (source lines 104-109). *)
Definition userContentPart (part : TextOrImage) : ChatCompletionContentPart :=
  match part with
  | ImagePart b => getImageUrl b
  | TextPart b => ContentPartText (TextBlockParam.text b)
  end.

(** The user branch (source lines 43-111): the new output array, and the
    final value of the local [toolResultImages]. *)
Definition convertUserBlocks (openAiMessages : list ChatCompletionMessageParam.t)
    (content : list ContentBlockParam) : ToolLoopState :=
  let acc :=
    fold_left userReducer content
      {| user_nonToolMessages := []; user_toolMessages := [] |} in
  let (openAiMessages1, toolResultImages) :=
    fold_left toolResultStep (user_toolMessages acc) (openAiMessages, []) in
  if (0 <? List.length (user_nonToolMessages acc))%nat then
    (openAiMessages1 ++
       [ {| ChatCompletionMessageParam.role := "user";
            ChatCompletionMessageParam.content :=
              Some (ContentParts (map userContentPart (user_nonToolMessages acc)));
            ChatCompletionMessageParam.tool_calls := None;
            ChatCompletionMessageParam.tool_call_id := None |} ],
     toolResultImages)
  else (openAiMessages1, toolResultImages).

(** Callback of the [map] over the assistant turn's text/image blocks
    (source lines 132-137). *)
Definition assistantContentPart (part : TextOrImage) : string :=
  match part with
  | ImagePart _ => ""   (* impossible as the assistant cannot send images *)
  | TextPart b => TextBlockParam.text b
  end.

Section Forward.

(** [JSON.stringify], a built-in of the host language. *)
Variable JSON_stringify : json -> string.

(** Callback of the [map] over the tool invocations (source lines 142-149). *)
Definition toolCallOfToolUse (toolMessage : ToolUseBlockParam.t)
  : ChatCompletionMessageToolCall.t :=
  {| ChatCompletionMessageToolCall.id := ToolUseBlockParam.id toolMessage;
     ChatCompletionMessageToolCall.type := "function";
     ChatCompletionMessageToolCall.function :=
       {| Function.name := ToolUseBlockParam.name toolMessage;
          Function.arguments :=
            JSON_stringify (ToolUseBlockParam.input toolMessage) |} |}.

(** The assistant branch (source lines 113-156). *)
Definition convertAssistantBlocks
    (openAiMessages : list ChatCompletionMessageParam.t)
    (content : list ContentBlockParam) : list ChatCompletionMessageParam.t :=
  let acc :=
    fold_left assistantReducer content
      {| assistant_nonToolMessages := []; assistant_toolMessages := [] |} in
  let content : option string :=
    if (0 <? List.length (assistant_nonToolMessages acc))%nat then
      Some (join newline
              (map assistantContentPart (assistant_nonToolMessages acc)))
    else None in
  let tool_calls := map toolCallOfToolUse (assistant_toolMessages acc) in
  openAiMessages ++
    [ {| ChatCompletionMessageParam.role := "assistant";
         ChatCompletionMessageParam.content := option_map ContentString content;
         ChatCompletionMessageParam.tool_calls :=
           if (0 <? List.length tool_calls)%nat then Some tool_calls else None;
         ChatCompletionMessageParam.tool_call_id := None |} ].

(** Body of the loop over the input turns (source lines 35-159). *)
Definition convertMessage (openAiMessages : list ChatCompletionMessageParam.t)
    (anthropicMessage : MessageParam.t) : list ChatCompletionMessageParam.t :=
  match MessageParam.content anthropicMessage with
  | Anthropic.ContentString s =>
      openAiMessages ++
        [ {| ChatCompletionMessageParam.role := MessageParam.role anthropicMessage;
             ChatCompletionMessageParam.content := Some (ContentString s);
             ChatCompletionMessageParam.tool_calls := None;
             ChatCompletionMessageParam.tool_call_id := None |} ]
  | ContentBlocks blocks =>
      if String.eqb (MessageParam.role anthropicMessage) "user" then
        fst (convertUserBlocks openAiMessages blocks)
      else if String.eqb (MessageParam.role anthropicMessage) "assistant" then
        convertAssistantBlocks openAiMessages blocks
      else openAiMessages
  end.

(** [convertToOpenAiMessages] *)
Definition convertToOpenAiMessages (anthropicMessages : list MessageParam.t)
  : list ChatCompletionMessageParam.t :=
  fold_left convertMessage anthropicMessages [].

End Forward.

(** ** Exceptions and the console *)

(** The exceptions the translator can meet. *)
Inductive Exn : Type :=
| TypeError (message : string)
| SyntaxError (message : string).

(** One call of [console.error(message, error)]. *)
Inductive ConsoleEntry : Type :=
| ConsoleError (message : string) (error : Exn).

Definition Console : Type := list ConsoleEntry.

(** A computation that may write to the console and may throw. *)
Definition Js (A : Type) : Type := Console -> (Exn + A) * Console.

Definition ret {A} (a : A) : Js A := fun console => (inr a, console).

Definition bind {A B} (m : Js A) (k : A -> Js B) : Js B :=
  fun console =>
    match m console with
    | (inl e, console1) => (inl e, console1)
    | (inr a, console1) => k a console1
    end.

Definition throw {A} (e : Exn) : Js A := fun console => (inl e, console).

(** [try { m } catch (error) { handler error }] *)
Definition try_catch {A} (m : Js A) (handler : Exn -> Js A) : Js A :=
  fun console =>
    match m console with
    | (inl e, console1) => handler e console1
    | (inr a, console1) => (inr a, console1)
    end.

(** A call of a built-in that returns or throws and prints nothing. *)
Definition call {A} (r : Exn + A) : Js A := fun console => (r, console).

(** [console.error(message, error)] *)
Definition console_error (message : string) (error : Exn) : Js unit :=
  fun console => (inr tt, console ++ [ConsoleError message error]).

Declare Scope js_scope.
Delimit Scope js_scope with js.
Notation "x <- m ;; k" := (bind m (fun x => k))
  (at level 61, m at next level, right associativity) : js_scope.
Notation "m ;; k" := (bind m (fun _ => k))
  (at level 61, right associativity) : js_scope.

(** [xs.map(f)] for a callback with effects, left to right. *)
Fixpoint mapJs {A B} (f : A -> Js B) (xs : list A) : Js (list B) :=
  match xs with
  | [] => ret []
  | x :: rest =>
      (y <- f x ;;
       ys <- mapJs f rest ;;
       ret (y :: ys))%js
  end.

(** ** Reverse translator (format B completion -> format A message) *)

(** The [switch] on the finish reason (source lines 179-191). *)
Definition stopReasonOfFinishReason (finish_reason : string) : option string :=
  if String.eqb finish_reason "stop" then Some "end_turn"
  else if String.eqb finish_reason "length" then Some "max_tokens"
  else if String.eqb finish_reason "tool_calls" then Some "tool_use"
  else if String.eqb finish_reason "content_filter" then None
  else None.

(** [completion.usage?.prompt_tokens] *)
Definition usage_prompt_tokens (usage : option CompletionUsage.t) : option Z :=
  option_map CompletionUsage.prompt_tokens usage.

(** [completion.usage?.completion_tokens] *)
Definition usage_completion_tokens (usage : option CompletionUsage.t) : option Z :=
  option_map CompletionUsage.completion_tokens usage.

(** [v || 0] where [v] may be [undefined]. *)
Definition optional_number_or (v : option Z) (d : Z) : Z :=
  match v with
  | Some n => number_or n d
  | None => d
  end.

(** [v || d] where [v] may be [null]. *)
Definition optional_string_or (v : option string) (d : string) : string :=
  match v with
  | Some s => string_or s d
  | None => d
  end.

(** [completion.choices[0]] followed by a property read: reading a property
    of [undefined] throws. *)
Definition firstChoice (choices : list Choice.t) : Js Choice.t :=
  match choices with
  | choice :: _ => ret choice
  | [] => throw (TypeError "Cannot read properties of undefined")
  end.

Section Reverse.

(** [JSON.parse], a built-in of the host language: the parsed value, or the
    [SyntaxError] it throws. *)
Variable JSON_parse : string -> Exn + json.

(** Callback of the [map] over the tool calls (source lines 203-216). *)
Definition toolUseOfToolCall (toolCall : ChatCompletionMessageToolCall.t)
  : Js ContentBlock :=
  (parsedInput <-
     try_catch
       (call (JSON_parse
                (string_or
                   (Function.arguments
                      (ChatCompletionMessageToolCall.function toolCall))
                   "{}")))
       (fun error =>
          console_error "Failed to parse tool arguments:" error ;;
          ret empty_object) ;;
   ret (ToolUseBlock
          (ChatCompletionMessageToolCall.id toolCall)
          (Function.name (ChatCompletionMessageToolCall.function toolCall))
          parsedInput))%js.

(** [convertToAnthropicMessage] *)
Definition convertToAnthropicMessage (completion : ChatCompletion.t)
  : Js Message.t :=
  (choice0 <- firstChoice (ChatCompletion.choices completion) ;;
   let openAiMessage := Choice.message choice0 in
   let anthropicMessage :=
     {| Message.id := ChatCompletion.id completion;
        Message.type := "message";
        Message.role := ChatCompletionMessage.role openAiMessage;
        Message.content :=
          [ TextBlock
              (optional_string_or (ChatCompletionMessage.content openAiMessage) "")
              None ];
        Message.model := ChatCompletion.model completion;
        Message.stop_reason :=
          stopReasonOfFinishReason (Choice.finish_reason choice0);
        Message.stop_sequence := None;
        Message.usage :=
          {| Usage.input_tokens :=
               optional_number_or
                 (usage_prompt_tokens (ChatCompletion.usage completion)) 0;
             Usage.output_tokens :=
               optional_number_or
                 (usage_completion_tokens (ChatCompletion.usage completion)) 0;
             Usage.cache_creation_input_tokens := 0;
             Usage.cache_read_input_tokens := 0 |} |} in
   match ChatCompletionMessage.tool_calls openAiMessage with
   | Some tool_calls =>
       if (0 <? List.length tool_calls)%nat then
         blocks <- mapJs toolUseOfToolCall tool_calls ;;
         ret {| Message.id := Message.id anthropicMessage;
                Message.type := Message.type anthropicMessage;
                Message.role := Message.role anthropicMessage;
                Message.content := Message.content anthropicMessage ++ blocks;
                Message.model := Message.model anthropicMessage;
                Message.stop_reason := Message.stop_reason anthropicMessage;
                Message.stop_sequence := Message.stop_sequence anthropicMessage;
                Message.usage := Message.usage anthropicMessage |}
       else ret anthropicMessage
   | None => ret anthropicMessage
   end)%js.

End Reverse.

(** ** A reference implementation of the built-ins

    [JSON.parse] follows the JSON grammar (ECMA-404); [JSON.stringify] prints
    the compact text.  They serve to run the translator on concrete inputs;
    the theorems on the translator hold for every choice of the built-ins.
    Strings are byte strings (UTF-8).  A number is read to its exact decimal
    value (without rounding to a double) and printed back as an integer when
    its exponent is not negative. *)

Module JSON.

(** The character that opens and closes a string. *)
Definition double_quote : ascii := ascii_of_nat 34.

Definition is_whitespace (c : ascii) : bool :=
  Ascii.eqb c " " || Ascii.eqb c (ascii_of_nat 9)
  || Ascii.eqb c (ascii_of_nat 10) || Ascii.eqb c (ascii_of_nat 13).

Fixpoint skip_whitespace (s : string) : string :=
  match s with
  | String c rest => if is_whitespace c then skip_whitespace rest else s
  | EmptyString => EmptyString
  end.

Definition digit_value (c : ascii) : option Z :=
  let n := nat_of_ascii c in
  if ((48 <=? n) && (n <=? 57))%nat then Some (Z.of_nat (n - 48)) else None.

Definition hex_value (c : ascii) : option N :=
  let n := N_of_ascii c in
  if ((48 <=? n) && (n <=? 57))%N then Some (n - 48)%N
  else if ((65 <=? n) && (n <=? 70))%N then Some (n - 55)%N
  else if ((97 <=? n) && (n <=? 102))%N then Some (n - 87)%N
  else None.

(** Reads a run of digits: the accumulated value, the number of digits read
    and the rest of the text. *)
Fixpoint read_digits (acc count : Z) (s : string) : Z * Z * string :=
  match s with
  | String c rest =>
      match digit_value c with
      | Some d => read_digits (10 * acc + d) (count + 1) rest
      | None => (acc, count, s)
      end
  | EmptyString => (acc, count, s)
  end.

(** [int]: a single [0], or a digit from 1 to 9 followed by digits. *)
Definition read_int (s : string) : option (Z * string) :=
  match s with
  | String c rest =>
      match digit_value c with
      | Some 0%Z => Some (0%Z, rest)
      | Some d => let '(v, _, rest1) := read_digits d 1 rest in Some (v, rest1)
      | None => None
      end
  | EmptyString => None
  end.

(** [frac]: nothing, or a point followed by at least one digit. *)
Definition read_frac (acc : Z) (s : string) : option (Z * Z * string) :=
  match s with
  | String "." rest =>
      let '(v, count, rest1) := read_digits acc 0 rest in
      if (count =? 0)%Z then None else Some (v, count, rest1)
  | _ => Some (acc, 0%Z, s)
  end.

(** [exp]: nothing, or [e]/[E], an optional sign and at least one digit. *)
Definition read_exp (s : string) : option (Z * string) :=
  match s with
  | String c rest =>
      if Ascii.eqb c "e" || Ascii.eqb c "E" then
        let '(negative, rest1) :=
          match rest with
          | String "-" r => (true, r)
          | String "+" r => (false, r)
          | _ => (false, rest)
          end in
        let '(v, count, rest2) := read_digits 0 0 rest1 in
        if (count =? 0)%Z then None
        else Some (if negative then (- v)%Z else v, rest2)
      else Some (0%Z, s)
  | EmptyString => Some (0%Z, s)
  end.

Definition read_number (s : string) : option (json * string) :=
  let '(negative, s1) :=
    match s with
    | String "-" r => (true, r)
    | _ => (false, s)
    end in
  match read_int s1 with
  | Some (i, s2) =>
      match read_frac i s2 with
      | Some (m, fraction_digits, s3) =>
          match read_exp s3 with
          | Some (e, s4) =>
              Some (JNumber (if negative then (- m)%Z else m)
                      (e - fraction_digits)%Z, s4)
          | None => None
          end
      | None => None
      end
  | None => None
  end.

(** The UTF-8 bytes of a code point. *)
Definition utf8 (cp : N) : string :=
  let byte (n : N) := String (ascii_of_N n) EmptyString in
  (if (cp <? 128)%N then byte cp
   else if (cp <? 2048)%N then
     byte (192 + cp / 64)%N ++ byte (128 + cp mod 64)%N
   else if (cp <? 65536)%N then
     byte (224 + cp / 4096)%N ++ byte (128 + (cp / 64) mod 64)%N
     ++ byte (128 + cp mod 64)%N
   else
     byte (240 + cp / 262144)%N ++ byte (128 + (cp / 4096) mod 64)%N
     ++ byte (128 + (cp / 64) mod 64)%N ++ byte (128 + cp mod 64)%N)%string.

Definition hex4 (a b c d : ascii) : option N :=
  match hex_value a, hex_value b, hex_value c, hex_value d with
  | Some x, Some y, Some z, Some w => Some (((x * 16 + y) * 16 + z) * 16 + w)%N
  | _, _, _, _ => None
  end.

Definition simple_escape (c : ascii) : option ascii :=
  if Ascii.eqb c double_quote then Some double_quote
  else if Ascii.eqb c "\" then Some "\"%char
  else if Ascii.eqb c "/" then Some "/"%char
  else if Ascii.eqb c "b" then Some (ascii_of_nat 8)
  else if Ascii.eqb c "f" then Some (ascii_of_nat 12)
  else if Ascii.eqb c "n" then Some (ascii_of_nat 10)
  else if Ascii.eqb c "r" then Some (ascii_of_nat 13)
  else if Ascii.eqb c "t" then Some (ascii_of_nat 9)
  else None.

Definition prepend (prefix : string) (r : option (string * string))
  : option (string * string) :=
  match r with
  | Some (body, rest) => Some ((prefix ++ body)%string, rest)
  | None => None
  end.

(** The characters of a string up to its closing quote, decoded. *)
Fixpoint read_string_body (s : string) : option (string * string) :=
  match s with
  | EmptyString => None
  | String c rest =>
      if Ascii.eqb c double_quote then Some (EmptyString, rest)
      else if Ascii.eqb c "\" then
        match rest with
        | String "u" (String h1 (String h2 (String h3 (String h4 rest1)))) =>
            match hex4 h1 h2 h3 h4 with
            | Some hi =>
                match rest1 with
                | String "\" (String "u"
                    (String l1 (String l2 (String l3 (String l4 rest2))))) =>
                    match hex4 l1 l2 l3 l4 with
                    | Some lo =>
                        if ((55296 <=? hi) && (hi <? 56320)
                            && (56320 <=? lo) && (lo <? 57344))%N
                        then prepend
                               (utf8 (65536 + (hi - 55296) * 1024 + (lo - 56320))%N)
                               (read_string_body rest2)
                        else prepend (utf8 hi) (read_string_body rest1)
                    | None => prepend (utf8 hi) (read_string_body rest1)
                    end
                | _ => prepend (utf8 hi) (read_string_body rest1)
                end
            | None => None
            end
        | String e rest1 =>
            match simple_escape e with
            | Some d => prepend (String d EmptyString) (read_string_body rest1)
            | None => None
            end
        | EmptyString => None
        end
      else if (nat_of_ascii c <? 32)%nat then None
      else prepend (String c EmptyString) (read_string_body rest)
  end.

(** Consumes the literal [word] at the head of [s]. *)
Fixpoint read_literal (word s : string) : option string :=
  match word, s with
  | EmptyString, _ => Some s
  | String w word1, String c rest =>
      if Ascii.eqb w c then read_literal word1 rest else None
  | String _ _, EmptyString => None
  end.

Fixpoint read_value (fuel : nat) (s : string) : option (json * string) :=
  match fuel with
  | O => None
  | S fuel1 =>
      match skip_whitespace s with
      | EmptyString => None
      | String c rest =>
          if Ascii.eqb c "{" then
            match skip_whitespace rest with
            | String "}" rest1 => Some (JObject [], rest1)
            | _ => read_members fuel1 rest []
            end
          else if Ascii.eqb c "[" then
            match skip_whitespace rest with
            | String "]" rest1 => Some (JArray [], rest1)
            | _ => read_elements fuel1 rest []
            end
          else if Ascii.eqb c double_quote then
            match read_string_body rest with
            | Some (body, rest1) => Some (JString body, rest1)
            | None => None
            end
          else if Ascii.eqb c "t" then
            option_map (pair (JBool true)) (read_literal "rue" rest)
          else if Ascii.eqb c "f" then
            option_map (pair (JBool false)) (read_literal "alse" rest)
          else if Ascii.eqb c "n" then
            option_map (pair JNull) (read_literal "ull" rest)
          else read_number (String c rest)
      end
  end
with read_elements (fuel : nat) (s : string) (acc : list json)
  : option (json * string) :=
  match fuel with
  | O => None
  | S fuel1 =>
      match read_value fuel1 s with
      | Some (v, rest) =>
          match skip_whitespace rest with
          | String "," rest1 => read_elements fuel1 rest1 (acc ++ [v])
          | String "]" rest1 => Some (JArray (acc ++ [v]), rest1)
          | _ => None
          end
      | None => None
      end
  end
with read_members (fuel : nat) (s : string) (acc : list (string * json))
  : option (json * string) :=
  match fuel with
  | O => None
  | S fuel1 =>
      match skip_whitespace s with
      | String c rest =>
          if Ascii.eqb c double_quote then
            match read_string_body rest with
            | Some (key, rest1) =>
                match skip_whitespace rest1 with
                | String ":" rest2 =>
                    match read_value fuel1 rest2 with
                    | Some (v, rest3) =>
                        match skip_whitespace rest3 with
                        | String "," rest4 =>
                            read_members fuel1 rest4 (acc ++ [(key, v)])
                        | String "}" rest4 =>
                            Some (JObject (acc ++ [(key, v)]), rest4)
                        | _ => None
                        end
                    | None => None
                    end
                | _ => None
                end
            | None => None
            end
          else None
      | EmptyString => None
      end
  end.

(** [JSON.parse(text)]: one value between optional white space, or a
    [SyntaxError].  The fuel bounds the depth of the calls of the three
    readers: from one to the next a character is consumed, except from
    [read_elements] to the [read_value] of an element. *)
Definition parse (text : string) : Exn + json :=
  match read_value (2 * String.length text + 2) text with
  | Some (v, rest) =>
      match skip_whitespace rest with
      | EmptyString => inr v
      | String _ _ => inl (SyntaxError "Unexpected non-whitespace character after JSON")
      end
  | None => inl (SyntaxError "Unexpected token or end of JSON input")
  end.

Definition hex_digit (n : N) : ascii :=
  if (n <? 10)%N then ascii_of_N (48 + n) else ascii_of_N (87 + n).

(** One character of a quoted string. *)
Definition escape_char (c : ascii) : string :=
  let n := N_of_ascii c in
  if Ascii.eqb c double_quote then String "\" (String double_quote "")
  else if Ascii.eqb c "\" then "\\"
  else if (n =? 8)%N then "\b"
  else if (n =? 12)%N then "\f"
  else if (n =? 10)%N then "\n"
  else if (n =? 13)%N then "\r"
  else if (n =? 9)%N then "\t"
  else if (n <? 32)%N then
    ("\u00" ++ String (hex_digit (n / 16)) (String (hex_digit (n mod 16)) ""))%string
  else String c "".

Fixpoint escape (s : string) : string :=
  match s with
  | String c rest => (escape_char c ++ escape rest)%string
  | EmptyString => EmptyString
  end.

Definition quote (s : string) : string :=
  String double_quote (escape s ++ String double_quote "")%string.

Definition decimal (z : Z) : string :=
  NilZero.string_of_int (Z.to_int z).

Definition number_text (mantissa exponent : Z) : string :=
  if (0 <=? exponent)%Z then decimal (mantissa * 10 ^ exponent)
  else (decimal mantissa ++ "e" ++ decimal exponent)%string.

(** [JSON.stringify(value)] *)
Fixpoint stringify (value : json) : string :=
  match value with
  | JNull => "null"
  | JBool true => "true"
  | JBool false => "false"
  | JNumber mantissa exponent => number_text mantissa exponent
  | JString s => quote s
  | JArray elements =>
      ("[" ++ join "," (map stringify elements) ++ "]")%string
  | JObject members =>
      ("{" ++ join ","
                (map (fun member : string * json =>
                        (quote (fst member) ++ ":" ++ stringify (snd member))%string)
                   members)
        ++ "}")%string
  end.

End JSON.


(** * Properties of the forward translator *)

(** ** Vocabulary: the partitions of a block sequence *)

(** The tool-result blocks of a block sequence, in their original order. *)
Definition toolResultsOf (blocks : list ContentBlockParam)
  : list ToolResultBlockParam.t :=
  flat_map (fun block => match block with ToolResult b => [b] | _ => [] end) blocks.

(** The tool-invocation blocks of a block sequence, in their original order. *)
Definition toolUsesOf (blocks : list ContentBlockParam)
  : list ToolUseBlockParam.t :=
  flat_map (fun block => match block with ToolUse b => [b] | _ => [] end) blocks.

(** The text and image blocks of a block sequence, in their original order. *)
Definition textImagesOf (blocks : list ContentBlockParam) : list TextOrImage :=
  flat_map (fun block =>
              match block with
              | Text b => [TextPart b]
              | Image b => [ImagePart b]
              | _ => []
              end) blocks.

(** The text that stands for one part of a tool result. *)
Definition resultPartText (part : TextOrImage) : string :=
  match part with
  | TextPart b => TextBlockParam.text b
  | ImagePart _ => "(see following user message for image)"
  end.

(** The images among the parts of a tool result. *)
Definition imagesOfParts (parts : list TextOrImage) : list ImageBlockParam.t :=
  flat_map (fun part => match part with ImagePart b => [b] | TextPart _ => [] end)
    parts.

(** The images embedded in a tool result. *)
Definition imagesOfToolResult (b : ToolResultBlockParam.t)
  : list ImageBlockParam.t :=
  match ToolResultBlockParam.content b with
  | Some (ResultParts parts) => imagesOfParts parts
  | _ => []
  end.

(** The string a tool result's content reduces to. *)
Definition toolResultText (b : ToolResultBlockParam.t) : string :=
  match ToolResultBlockParam.content b with
  | Some (ResultString s) => s
  | Some (ResultParts parts) => join newline (map resultPartText parts)
  | None => ""
  end.

(** The format-B turn of one tool result. *)
Definition toolTurn (b : ToolResultBlockParam.t) : ChatCompletionMessageParam.t :=
  {| ChatCompletionMessageParam.role := "tool";
     ChatCompletionMessageParam.content := Some (ContentString (toolResultText b));
     ChatCompletionMessageParam.tool_calls := None;
     ChatCompletionMessageParam.tool_call_id :=
       Some (ToolResultBlockParam.tool_use_id b) |}.

(** The format-B user turn aggregating text and image blocks: none when there
    is no such block. *)
Definition userTurn (parts : list TextOrImage) : list ChatCompletionMessageParam.t :=
  match parts with
  | [] => []
  | _ :: _ =>
      [ {| ChatCompletionMessageParam.role := "user";
           ChatCompletionMessageParam.content :=
             Some (ContentParts (map userContentPart parts));
           ChatCompletionMessageParam.tool_calls := None;
           ChatCompletionMessageParam.tool_call_id := None |} ]
  end.

(** Rewriting, with [f], every image embedded in a tool result: in a part, in
    a tool-result block, in a block and in a turn. *)
Definition mapPartImage (f : ImageBlockParam.t -> ImageBlockParam.t)
    (part : TextOrImage) : TextOrImage :=
  match part with
  | ImagePart b => ImagePart (f b)
  | TextPart b => TextPart b
  end.

Definition mapToolResultImages (f : ImageBlockParam.t -> ImageBlockParam.t)
    (b : ToolResultBlockParam.t) : ToolResultBlockParam.t :=
  {| ToolResultBlockParam.tool_use_id := ToolResultBlockParam.tool_use_id b;
     ToolResultBlockParam.content :=
       match ToolResultBlockParam.content b with
       | Some (ResultParts parts) => Some (ResultParts (map (mapPartImage f) parts))
       | other => other
       end |}.

Definition mapBlockToolResultImages (f : ImageBlockParam.t -> ImageBlockParam.t)
    (block : ContentBlockParam) : ContentBlockParam :=
  match block with
  | ToolResult b => ToolResult (mapToolResultImages f b)
  | other => other
  end.

Definition mapMessageToolResultImages (f : ImageBlockParam.t -> ImageBlockParam.t)
    (m : MessageParam.t) : MessageParam.t :=
  {| MessageParam.role := MessageParam.role m;
     MessageParam.content :=
       match MessageParam.content m with
       | ContentBlocks blocks =>
           ContentBlocks (map (mapBlockToolResultImages f) blocks)
       | other => other
       end |}.

(** ** Vocabulary: the tool calls of a completion *)

(** The text handed to [JSON.parse] for a tool call: its arguments, or the
    text of the empty object when they are the empty string. *)
Definition argumentsText (toolCall : ChatCompletionMessageToolCall.t) : string :=
  string_or
    (Function.arguments (ChatCompletionMessageToolCall.function toolCall)) "{}".

(** The input a tool call is given: the parsed arguments, or the empty object
    when they do not parse. *)
Definition inputOf (JSON_parse : string -> Exn + json)
    (toolCall : ChatCompletionMessageToolCall.t) : json :=
  match JSON_parse (argumentsText toolCall) with
  | inr value => value
  | inl _ => empty_object
  end.

(** The tool-invocation block of a tool call. *)
Definition toolUseBlockOf (JSON_parse : string -> Exn + json)
    (toolCall : ChatCompletionMessageToolCall.t) : ContentBlock :=
  ToolUseBlock
    (ChatCompletionMessageToolCall.id toolCall)
    (Function.name (ChatCompletionMessageToolCall.function toolCall))
    (inputOf JSON_parse toolCall).

(** What a tool call writes to the console: the parse error, if any. *)
Definition diagnosticsOf (JSON_parse : string -> Exn + json)
    (toolCall : ChatCompletionMessageToolCall.t) : Console :=
  match JSON_parse (argumentsText toolCall) with
  | inr _ => []
  | inl error => [ConsoleError "Failed to parse tool arguments:" error]
  end.

(** The tool calls of a message; none when the field is absent. *)
Definition toolCallsOf (message : ChatCompletionMessage.t)
  : list ChatCompletionMessageToolCall.t :=
  match ChatCompletionMessage.tool_calls message with
  | Some tool_calls => tool_calls
  | None => []
  end.

(** The format-A message of a completion whose first choice is [choice]. *)
Definition messageOf (JSON_parse : string -> Exn + json)
    (completion : ChatCompletion.t) (choice : Choice.t) : Message.t :=
  {| Message.id := ChatCompletion.id completion;
     Message.type := "message";
     Message.role := ChatCompletionMessage.role (Choice.message choice);
     Message.content :=
       TextBlock
         (match ChatCompletionMessage.content (Choice.message choice) with
          | Some text => text
          | None => ""
          end) None
       :: map (toolUseBlockOf JSON_parse) (toolCallsOf (Choice.message choice));
     Message.model := ChatCompletion.model completion;
     Message.stop_reason := stopReasonOfFinishReason (Choice.finish_reason choice);
     Message.stop_sequence := None;
     Message.usage :=
       {| Usage.input_tokens :=
            match ChatCompletion.usage completion with
            | Some usage => CompletionUsage.prompt_tokens usage
            | None => 0
            end;
          Usage.output_tokens :=
            match ChatCompletion.usage completion with
            | Some usage => CompletionUsage.completion_tokens usage
            | None => 0
            end;
          Usage.cache_creation_input_tokens := 0;
          Usage.cache_read_input_tokens := 0 |} |}.

(** ** Sample inputs *)

Module Sample.

Definition toolCall (id arguments : string) : ChatCompletionMessageToolCall.t :=
  {| ChatCompletionMessageToolCall.id := id;
     ChatCompletionMessageToolCall.type := "function";
     ChatCompletionMessageToolCall.function :=
       {| Function.name := "read_file"; Function.arguments := arguments |} |}.

(** The arguments text of an object with one member, [path]. *)
Definition path_arguments : string :=
  JSON.stringify (JObject [("path", JString "a.txt")]).

(** A completion that asks for four tool calls: arguments that are not
    JSON, empty arguments, an empty object, and an object with a member. *)
Definition completion : ChatCompletion.t :=
  {| ChatCompletion.id := "chatcmpl-1";
     ChatCompletion.choices :=
       [ {| Choice.finish_reason := "tool_calls";
            Choice.message :=
              {| ChatCompletionMessage.role := "assistant";
                 ChatCompletionMessage.content := None;
                 ChatCompletionMessage.tool_calls :=
                   Some [ toolCall "call_1" "not json";
                          toolCall "call_2" "";
                          toolCall "call_3" "{}";
                          toolCall "call_4" path_arguments ] |} |} ];
     ChatCompletion.model := "gpt-4o";
     ChatCompletion.usage := None |}.

(** A completion with plain text, a usage object and an unknown finish
    reason. *)
Definition text_completion : ChatCompletion.t :=
  {| ChatCompletion.id := "chatcmpl-2";
     ChatCompletion.choices :=
       [ {| Choice.finish_reason := "function_call";
            Choice.message :=
              {| ChatCompletionMessage.role := "assistant";
                 ChatCompletionMessage.content := Some "Hello";
                 ChatCompletionMessage.tool_calls := None |} |} ];
     ChatCompletion.model := "gpt-4o-mini";
     ChatCompletion.usage :=
       Some {| CompletionUsage.prompt_tokens := 12;
               CompletionUsage.completion_tokens := 0 |} |}.

(** A completion whose only tool call has the empty string as arguments. *)
Definition empty_arguments_completion : ChatCompletion.t :=
  {| ChatCompletion.id := "chatcmpl-3";
     ChatCompletion.choices :=
       [ {| Choice.finish_reason := "tool_calls";
            Choice.message :=
              {| ChatCompletionMessage.role := "assistant";
                 ChatCompletionMessage.content := None;
                 ChatCompletionMessage.tool_calls :=
                   Some [ toolCall "call_1" "" ] |} |} ];
     ChatCompletion.model := "gpt-4o";
     ChatCompletion.usage := None |}.

Definition png : ImageBlockParam.t :=
  {| ImageBlockParam.source := Base64ImageSource "image/png" "AAAA" |}.

Definition linked : ImageBlockParam.t :=
  {| ImageBlockParam.source := URLImageSource "https://example.com/a.png" |}.

Definition text (s : string) : TextBlockParam.t := {| TextBlockParam.text := s |}.

(** A conversation: a plain question, an assistant turn with text and two
    tool invocations, and a user turn that mixes feedback, an image and the
    two tool results (the second one with an embedded image). *)
Definition conversation : list MessageParam.t :=
  [ {| MessageParam.role := "user";
       MessageParam.content := Anthropic.ContentString "Read both files" |};
    {| MessageParam.role := "assistant";
       MessageParam.content :=
         ContentBlocks
           [ Text (text "Reading");
             ToolUse {| ToolUseBlockParam.id := "toolu_1";
                        ToolUseBlockParam.name := "read_file";
                        ToolUseBlockParam.input :=
                          JObject [("path", JString "a.txt")] |};
             Text (text "both");
             ToolUse {| ToolUseBlockParam.id := "toolu_2";
                        ToolUseBlockParam.name := "read_file";
                        ToolUseBlockParam.input := JObject [] |} ] |};
    {| MessageParam.role := "user";
       MessageParam.content :=
         ContentBlocks
           [ Text (text "thanks");
             ToolResult
               {| ToolResultBlockParam.tool_use_id := "toolu_1";
                  ToolResultBlockParam.content := Some (ResultString "contents of a") |};
             Image png;
             ToolResult
               {| ToolResultBlockParam.tool_use_id := "toolu_2";
                  ToolResultBlockParam.content :=
                    Some (ResultParts
                            [ TextPart (text "first"); ImagePart linked;
                              TextPart (text "last") ]) |};
             Image linked ] |} ].

End Sample.

(** ** Embedding settings: the model selection

    [normalizeEmbeddingConfiguration] of
    [webview-ui/src/components/settings/EmbeddingOptions.tsx], and the effect
    of that component that writes the selection back to the configuration. *)

Module Embedding.

(** The fields of [EmbeddingConfiguration] that the component reads or
    writes (the type is declared with the model tables, in
    [src/shared/embeddings]). *)
Record EmbeddingConfiguration : Type :=
  { provider : option string;
    modelId : option string;
    openAiNativeApiKey : option string;
    awsAccessKey : option string;
    awsSecretKey : option string;
    awsSessionToken : option string;
    awsRegion : option string;
    openAiApiKey : option string;
    openAiBaseUrl : option string;
    openAiModelId : option string;
    azureOpenAIApiVersion : option string }.

(** The object literal [{}] seen as a configuration: every field absent. *)
Definition empty_configuration : EmbeddingConfiguration :=
  {| provider := None; modelId := None; openAiNativeApiKey := None;
     awsAccessKey := None; awsSecretKey := None; awsSessionToken := None;
     awsRegion := None; openAiApiKey := None; openAiBaseUrl := None;
     openAiModelId := None; azureOpenAIApiVersion := None |}.

(** [embeddingConfiguration?.provider] *)
Definition optional_provider
    (embeddingConfiguration : option EmbeddingConfiguration) : option string :=
  match embeddingConfiguration with
  | Some configuration => provider configuration
  | None => None
  end.

(** [embeddingConfiguration?.modelId] *)
Definition optional_modelId
    (embeddingConfiguration : option EmbeddingConfiguration) : option string :=
  match embeddingConfiguration with
  | Some configuration => modelId configuration
  | None => None
  end.

(** The result of [normalizeEmbeddingConfiguration]. *)
Record Selection (Info : Type) : Type :=
  { selectedProvider : string;
    selectedModelId : string;
    selectedModelInfo : Info }.

Arguments selectedProvider {Info} _.
Arguments selectedModelId {Info} _.
Arguments selectedModelInfo {Info} _.

Section Normalize.

(** The model tables and their default ids are declared in
    [src/shared/embeddings]: a table is a [Record<string, EmbeddingModelInfo>],
    used here through the operator [key in table] and the read [table[key]]
    (whose result is [undefined] for a missing key). *)
Variable Models : Type.
Variable Info : Type.
Variable key_in : string -> Models -> bool.
Variable index : Models -> string -> Info.
Variable bedrockEmbeddingModels : Models.
Variable openAiNativeEmbeddingModels : Models.
Variable bedrockeEmbeddingDefaultModelId : string.
Variable openAiNativeEmbeddingDefaultModelId : string.

(** [getProviderData] (source lines 366-377), with the [provider] and
    [modelId] it captures. *)
Definition getProviderData (provider : string) (modelId : option string)
    (models : Models) (defaultId : string) : Selection Info :=
  match modelId with
  | Some id =>
      if negb (String.eqb id "") && key_in id models then
        {| selectedProvider := provider;
           selectedModelId := id;
           selectedModelInfo := index models id |}
      else
        {| selectedProvider := provider;
           selectedModelId := defaultId;
           selectedModelInfo := index models defaultId |}
  | None =>
      {| selectedProvider := provider;
         selectedModelId := defaultId;
         selectedModelInfo := index models defaultId |}
  end.

(** [normalizeEmbeddingConfiguration] (source lines 362-389). *)
Definition normalizeEmbeddingConfiguration
    (embeddingConfiguration : option EmbeddingConfiguration) : Selection Info :=
  let provider :=
    optional_string_or (optional_provider embeddingConfiguration)
      "openai-native" in
  let modelId := optional_modelId embeddingConfiguration in
  if String.eqb provider "bedrock" then
    getProviderData provider modelId
      bedrockEmbeddingModels bedrockeEmbeddingDefaultModelId
  else if String.eqb provider "openai-native" then
    getProviderData provider modelId
      openAiNativeEmbeddingModels openAiNativeEmbeddingDefaultModelId
  else if String.eqb provider "openai" then
    getProviderData provider modelId
      openAiNativeEmbeddingModels openAiNativeEmbeddingDefaultModelId
  else
    getProviderData provider modelId
      openAiNativeEmbeddingModels openAiNativeEmbeddingDefaultModelId.

End Normalize.

(** The configuration the component sets once the selection is known
    (source lines 94-101):
    [{...embeddingConfiguration, provider: selectedProvider, modelId: selectedModelId}]. *)
Definition withSelection {Info : Type}
    (embeddingConfiguration : option EmbeddingConfiguration)
    (selection : Selection Info) : EmbeddingConfiguration :=
  let spread :=
    match embeddingConfiguration with
    | Some configuration => configuration
    | None => empty_configuration
    end in
  {| provider := Some (selectedProvider selection);
     modelId := Some (selectedModelId selection);
     openAiNativeApiKey := openAiNativeApiKey spread;
     awsAccessKey := awsAccessKey spread;
     awsSecretKey := awsSecretKey spread;
     awsSessionToken := awsSessionToken spread;
     awsRegion := awsRegion spread;
     openAiApiKey := openAiApiKey spread;
     openAiBaseUrl := openAiBaseUrl spread;
     openAiModelId := openAiModelId spread;
     azureOpenAIApiVersion := azureOpenAIApiVersion spread |}.

(** Sample tables, as association lists from a model id to its number of
    dimensions. *)
Module Tables.

Definition Models : Type := list (string * nat).

Definition key_in (key : string) (models : Models) : bool :=
  existsb (fun entry => String.eqb (fst entry) key) models.

Definition index (models : Models) (key : string) : option nat :=
  option_map snd (find (fun entry => String.eqb (fst entry) key) models).

Definition bedrock : Models :=
  [ ("amazon.titan-embed-text-v1", 1536%nat);
    ("amazon.titan-embed-text-v2:0", 1024%nat) ].

Definition openAiNative : Models :=
  [ ("text-embedding-3-small", 1536%nat);
    ("text-embedding-3-large", 3072%nat);
    ("text-embedding-ada-002", 1536%nat) ].

Definition normalize : option EmbeddingConfiguration -> Selection (option nat) :=
  normalizeEmbeddingConfiguration Models (option nat) key_in index
    bedrock openAiNative "amazon.titan-embed-text-v1" "text-embedding-3-small".


(** Two configurations that ask for the same OpenAI model, one for the
    provider "openai" and one without a provider. *)
Definition compatible : EmbeddingConfiguration :=
  {| provider := Some "openai";
     modelId := Some "text-embedding-3-large";
     openAiNativeApiKey := None; awsAccessKey := None; awsSecretKey := None;
     awsSessionToken := None; awsRegion := None;
     openAiApiKey := Some "sk-compatible";
     openAiBaseUrl := Some "https://example.com/v1";
     openAiModelId := None; azureOpenAIApiVersion := None |}.

Definition unspecified : EmbeddingConfiguration :=
  {| provider := None;
     modelId := Some "text-embedding-3-large";
     openAiNativeApiKey := None; awsAccessKey := None; awsSecretKey := None;
     awsSessionToken := None; awsRegion := None;
     openAiApiKey := None; openAiBaseUrl := None;
     openAiModelId := None; azureOpenAIApiVersion := None |}.

End Tables.

End Embedding.

(** ** More sample inputs *)

Module MoreSamples.

(** A completion whose tool calls all carry valid JSON. *)
Definition valid_completion : ChatCompletion.t :=
  {| ChatCompletion.id := "chatcmpl-4";
     ChatCompletion.choices :=
       [ {| Choice.finish_reason := "tool_calls";
            Choice.message :=
              {| ChatCompletionMessage.role := "assistant";
                 ChatCompletionMessage.content := Some "Reading";
                 ChatCompletionMessage.tool_calls :=
                   Some [ Sample.toolCall "call_1" Sample.path_arguments;
                          Sample.toolCall "call_2" "[1, 2]" ] |} |};
         {| Choice.finish_reason := "stop";
            Choice.message :=
              {| ChatCompletionMessage.role := "assistant";
                 ChatCompletionMessage.content := Some "second candidate";
                 ChatCompletionMessage.tool_calls := None |} |} ];
     ChatCompletion.model := "gpt-4o";
     ChatCompletion.usage :=
       Some {| CompletionUsage.prompt_tokens := 0;
               CompletionUsage.completion_tokens := 7 |} |}.

(** A completion without any choice. *)
Definition no_choice : ChatCompletion.t :=
  {| ChatCompletion.id := "chatcmpl-5";
     ChatCompletion.choices := [];
     ChatCompletion.model := "gpt-4o";
     ChatCompletion.usage := None |}.

(** The assistant turn of the sample conversation, as blocks. *)
Definition assistant_blocks : list ContentBlockParam :=
  [ Text (Sample.text "Reading");
    ToolUse {| ToolUseBlockParam.id := "toolu_1";
               ToolUseBlockParam.name := "read_file";
               ToolUseBlockParam.input := JObject [("path", JString "a.txt")] |};
    Text (Sample.text "both");
    ToolUse {| ToolUseBlockParam.id := "toolu_2";
               ToolUseBlockParam.name := "read_file";
               ToolUseBlockParam.input := JObject [] |} ].

(** A completion that echoes the tool calls of [assistant_blocks]. *)
Definition echo_completion : ChatCompletion.t :=
  {| ChatCompletion.id := "chatcmpl-6";
     ChatCompletion.choices :=
       [ {| Choice.finish_reason := "tool_calls";
            Choice.message :=
              {| ChatCompletionMessage.role := "assistant";
                 ChatCompletionMessage.content := Some "Reading";
                 ChatCompletionMessage.tool_calls :=
                   Some [ {| ChatCompletionMessageToolCall.id := "toolu_1";
                             ChatCompletionMessageToolCall.type := "function";
                             ChatCompletionMessageToolCall.function :=
                               {| Function.name := "read_file";
                                  Function.arguments := Sample.path_arguments |} |};
                          {| ChatCompletionMessageToolCall.id := "toolu_2";
                             ChatCompletionMessageToolCall.type := "function";
                             ChatCompletionMessageToolCall.function :=
                               {| Function.name := "read_file";
                                  Function.arguments := "{}" |} |} ] |} |} ];
     ChatCompletion.model := "gpt-4o";
     ChatCompletion.usage := None |}.

(** Two turns of the translation of the sample conversation. *)
Definition tool_turn : ChatCompletionMessageParam.t :=
  {| ChatCompletionMessageParam.role := "tool";
     ChatCompletionMessageParam.content := Some (ContentString "contents of a");
     ChatCompletionMessageParam.tool_calls := None;
     ChatCompletionMessageParam.tool_call_id := Some "toolu_1" |}.

Definition user_parts : list ChatCompletionContentPart :=
  [ ContentPartText "thanks";
    ContentPartImage {| ImageURL.url := "data:image/png;base64,AAAA" |};
    ContentPartImage {| ImageURL.url := "https://example.com/a.png" |} ].

Definition user_turn : ChatCompletionMessageParam.t :=
  {| ChatCompletionMessageParam.role := "user";
     ChatCompletionMessageParam.content := Some (ContentParts user_parts);
     ChatCompletionMessageParam.tool_calls := None;
     ChatCompletionMessageParam.tool_call_id := None |}.

End MoreSamples.

(** ** Vocabulary: counting the turns *)

(** The number of tool-result blocks of a turn; none for a string content. *)
Definition toolResultCount (m : MessageParam.t) : nat :=
  match MessageParam.content m with
  | ContentBlocks blocks => List.length (toolResultsOf blocks)
  | Anthropic.ContentString _ => 0%nat
  end.

(** ** The partitions computed by the two [reduce] calls *)

Lemma toolResultsOf_app (xs ys : list ContentBlockParam) :
  toolResultsOf (xs ++ ys) = toolResultsOf xs ++ toolResultsOf ys.
Proof. apply flat_map_app. Qed.

Lemma toolUsesOf_app (xs ys : list ContentBlockParam) :
  toolUsesOf (xs ++ ys) = toolUsesOf xs ++ toolUsesOf ys.
Proof. apply flat_map_app. Qed.

Lemma textImagesOf_app (xs ys : list ContentBlockParam) :
  textImagesOf (xs ++ ys) = textImagesOf xs ++ textImagesOf ys.
Proof. apply flat_map_app. Qed.

Create Rewrite HintDb partitions.
#[local] Hint Rewrite toolResultsOf_app toolUsesOf_app textImagesOf_app
  : partitions.

Lemma userReducer_fold (blocks : list ContentBlockParam) (acc : UserPartition) :
  fold_left userReducer blocks acc =
  {| user_nonToolMessages := user_nonToolMessages acc ++ textImagesOf blocks;
     user_toolMessages := user_toolMessages acc ++ toolResultsOf blocks |}.
Proof.
  revert acc.
  induction blocks as [| block blocks IH]; intros [nonTool tool]; simpl.
  - now rewrite !app_nil_r.
  - rewrite IH. destruct block; simpl; now rewrite <- ?app_assoc.
Qed.

Lemma assistantReducer_fold (blocks : list ContentBlockParam)
    (acc : AssistantPartition) :
  fold_left assistantReducer blocks acc =
  {| assistant_nonToolMessages :=
       assistant_nonToolMessages acc ++ textImagesOf blocks;
     assistant_toolMessages := assistant_toolMessages acc ++ toolUsesOf blocks |}.
Proof.
  revert acc.
  induction blocks as [| block blocks IH]; intros [nonTool tool]; simpl.
  - now rewrite !app_nil_r.
  - rewrite IH. destruct block; simpl; now rewrite <- ?app_assoc.
Qed.

(** ** The loop over the tool results *)

Lemma mapToolResultParts_spec (parts : list TextOrImage)
    (images : list ImageBlockParam.t) :
  mapToolResultParts parts images =
  (map resultPartText parts, images ++ imagesOfParts parts).
Proof.
  revert images.
  induction parts as [| part parts IH]; intros images; simpl.
  - now rewrite app_nil_r.
  - destruct part as [b | b]; simpl; rewrite IH; simpl.
    + reflexivity.
    + now rewrite <- app_assoc.
Qed.

Lemma toolResultContent_spec (b : ToolResultBlockParam.t)
    (images : list ImageBlockParam.t) :
  toolResultContent b images = (toolResultText b, images ++ imagesOfToolResult b).
Proof.
  unfold toolResultContent, toolResultText, imagesOfToolResult.
  destruct (ToolResultBlockParam.content b) as [[s | parts] |].
  - now rewrite app_nil_r.
  - now rewrite mapToolResultParts_spec.
  - now rewrite app_nil_r.
Qed.

Lemma toolResultStep_fold (toolMessages : list ToolResultBlockParam.t)
    (output : list ChatCompletionMessageParam.t)
    (images : list ImageBlockParam.t) :
  fold_left toolResultStep toolMessages (output, images) =
  (output ++ map toolTurn toolMessages,
   images ++ flat_map imagesOfToolResult toolMessages).
Proof.
  revert output images.
  induction toolMessages as [| b rest IH]; intros output images; simpl.
  - now rewrite !app_nil_r.
  - rewrite toolResultContent_spec, IH. now rewrite <- !app_assoc.
Qed.

Lemma convertUserBlocks_spec (output : list ChatCompletionMessageParam.t)
    (blocks : list ContentBlockParam) :
  convertUserBlocks output blocks =
  (output ++ map toolTurn (toolResultsOf blocks) ++ userTurn (textImagesOf blocks),
   flat_map imagesOfToolResult (toolResultsOf blocks)).
Proof.
  unfold convertUserBlocks.
  rewrite userReducer_fold. simpl.
  rewrite toolResultStep_fold. simpl.
  destruct (textImagesOf blocks) as [| part parts]; simpl.
  - now rewrite app_nil_r.
  - now rewrite <- app_assoc.
Qed.

(** ** The loop over the input turns *)

Section ForwardProperties.

Variable JSON_stringify : json -> string.

#[local] Abbreviation convert := (convertToOpenAiMessages JSON_stringify).

Lemma convertMessage_app (output : list ChatCompletionMessageParam.t)
    (m : MessageParam.t) :
  convertMessage JSON_stringify output m =
  output ++ convertMessage JSON_stringify [] m.
Proof.
  unfold convertMessage.
  destruct (MessageParam.content m) as [s | blocks]; [reflexivity |].
  destruct (String.eqb (MessageParam.role m) "user").
  - now rewrite !convertUserBlocks_spec.
  - destruct (String.eqb (MessageParam.role m) "assistant").
    + reflexivity.
    + now rewrite app_nil_r.
Qed.

Lemma convertMessage_fold (msgs : list MessageParam.t)
    (output : list ChatCompletionMessageParam.t) :
  fold_left (convertMessage JSON_stringify) msgs output =
  output ++ flat_map (convertMessage JSON_stringify []) msgs.
Proof.
  revert output.
  induction msgs as [| m msgs IH]; intros output; simpl.
  - now rewrite app_nil_r.
  - rewrite IH, (convertMessage_app output). now rewrite <- app_assoc.
Qed.

Lemma convertToOpenAiMessages_flat_map (msgs : list MessageParam.t) :
  convert msgs = flat_map (convertMessage JSON_stringify []) msgs.
Proof. unfold convertToOpenAiMessages. now rewrite convertMessage_fold. Qed.

Lemma convertToOpenAiMessages_app (xs ys : list MessageParam.t) :
  convert (xs ++ ys) = convert xs ++ convert ys.
Proof. rewrite !convertToOpenAiMessages_flat_map. apply flat_map_app. Qed.

Lemma convertToOpenAiMessages_middle (before after : list MessageParam.t)
    (m : MessageParam.t) :
  convert (before ++ m :: after) =
  convert before ++ convertMessage JSON_stringify [] m ++ convert after.
Proof.
  rewrite convertToOpenAiMessages_app.
  change (m :: after) with ([m] ++ after).
  rewrite convertToOpenAiMessages_app.
  rewrite (convertToOpenAiMessages_flat_map [m]). simpl.
  now rewrite app_nil_r.
Qed.

Lemma convertMessage_user (blocks : list ContentBlockParam) :
  convertMessage JSON_stringify []
    {| MessageParam.role := "user";
       MessageParam.content := ContentBlocks blocks |} =
  map toolTurn (toolResultsOf blocks) ++ userTurn (textImagesOf blocks).
Proof.
  unfold convertMessage. simpl. now rewrite convertUserBlocks_spec.
Qed.

Lemma convertMessage_assistant (blocks : list ContentBlockParam) :
  convertMessage JSON_stringify []
    {| MessageParam.role := "assistant";
       MessageParam.content := ContentBlocks blocks |} =
  [ {| ChatCompletionMessageParam.role := "assistant";
       ChatCompletionMessageParam.content :=
         match textImagesOf blocks with
         | [] => None
         | parts =>
             Some (ContentString (join newline (map assistantContentPart parts)))
         end;
       ChatCompletionMessageParam.tool_calls :=
         match toolUsesOf blocks with
         | [] => None
         | uses => Some (map (toolCallOfToolUse JSON_stringify) uses)
         end;
       ChatCompletionMessageParam.tool_call_id := None |} ].
Proof.
  unfold convertMessage, convertAssistantBlocks. simpl.
  rewrite assistantReducer_fold. simpl.
  destruct (textImagesOf blocks), (toolUsesOf blocks); reflexivity.
Qed.

(** C1. A user turn with a block sequence is translated, in place, to one
    "tool" turn per tool-result block (N of them, in the blocks' original
    order, each carrying its block's [tool_use_id] as [tool_call_id]),
    immediately followed by one "user" turn aggregating the M text and image
    blocks when M > 0, and by nothing when M = 0. *)
Theorem user_turn_tool_results_first
    (before after : list MessageParam.t) (blocks : list ContentBlockParam) :
  convert
    (before
     ++ {| MessageParam.role := "user";
           MessageParam.content := ContentBlocks blocks |} :: after) =
  convert before
  ++ (map (fun b : ToolResultBlockParam.t =>
             {| ChatCompletionMessageParam.role := "tool";
                ChatCompletionMessageParam.content :=
                  Some (ContentString (toolResultText b));
                ChatCompletionMessageParam.tool_calls := None;
                ChatCompletionMessageParam.tool_call_id :=
                  Some (ToolResultBlockParam.tool_use_id b) |})
        (toolResultsOf blocks)
      ++ match textImagesOf blocks with
         | [] => []
         | parts =>
             [ {| ChatCompletionMessageParam.role := "user";
                  ChatCompletionMessageParam.content :=
                    Some (ContentParts (map userContentPart parts));
                  ChatCompletionMessageParam.tool_calls := None;
                  ChatCompletionMessageParam.tool_call_id := None |} ]
         end)
  ++ convert after.
Proof.
  rewrite convertToOpenAiMessages_middle, convertMessage_user.
  unfold userTurn, toolTurn.
  destruct (textImagesOf blocks); reflexivity.
Qed.

(** C2. An assistant turn with a block sequence is translated, in place, to
    exactly one "assistant" turn.  Its content is the text blocks joined with
    newlines, an image block counting as the empty string, and is absent
    when there is no text or image block.  Its [tool_calls] maps each
    tool-invocation block to [{id, type: "function", function: {name,
    arguments}}] with the JSON-serialized input as arguments, and is absent
    when there is no such block; no emitted turn ever carries an empty
    [tool_calls] sequence. *)
Theorem assistant_turn_single_message :
  (forall (before after : list MessageParam.t) (blocks : list ContentBlockParam),
      convert
        (before
         ++ {| MessageParam.role := "assistant";
               MessageParam.content := ContentBlocks blocks |} :: after) =
      convert before
      ++ [ {| ChatCompletionMessageParam.role := "assistant";
              ChatCompletionMessageParam.content :=
                match textImagesOf blocks with
                | [] => None
                | parts =>
                    Some (ContentString
                            (join newline
                               (map (fun part =>
                                       match part with
                                       | TextPart b => TextBlockParam.text b
                                       | ImagePart _ => ""
                                       end) parts)))
                end;
              ChatCompletionMessageParam.tool_calls :=
                match toolUsesOf blocks with
                | [] => None
                | uses =>
                    Some (map (fun b : ToolUseBlockParam.t =>
                                 {| ChatCompletionMessageToolCall.id :=
                                      ToolUseBlockParam.id b;
                                    ChatCompletionMessageToolCall.type := "function";
                                    ChatCompletionMessageToolCall.function :=
                                      {| Function.name := ToolUseBlockParam.name b;
                                         Function.arguments :=
                                           JSON_stringify (ToolUseBlockParam.input b) |} |})
                            uses)
                end;
              ChatCompletionMessageParam.tool_call_id := None |} ]
      ++ convert after)
  /\ (forall (msgs : list MessageParam.t) (m : ChatCompletionMessageParam.t),
         In m (convert msgs) ->
         ChatCompletionMessageParam.tool_calls m <> Some []).
Proof.
  split.
  - intros before after blocks.
    rewrite convertToOpenAiMessages_middle, convertMessage_assistant.
    destruct (textImagesOf blocks), (toolUsesOf blocks); reflexivity.
  - intros msgs m Hin.
    rewrite convertToOpenAiMessages_flat_map in Hin.
    apply in_flat_map in Hin. destruct Hin as [[role content] [_ Hin]].
    destruct content as [s | blocks].
    + destruct Hin as [<- | []]. discriminate.
    + unfold convertMessage in Hin. simpl in Hin.
      destruct (String.eqb role "user").
      * rewrite convertUserBlocks_spec in Hin. simpl in Hin.
        apply in_app_or in Hin. destruct Hin as [Hin | Hin].
        -- apply in_map_iff in Hin. destruct Hin as [b [<- _]]. discriminate.
        -- destruct (textImagesOf blocks); simpl in Hin;
             [contradiction | destruct Hin as [<- | []]; discriminate].
      * destruct (String.eqb role "assistant"); [| contradiction].
        unfold convertAssistantBlocks in Hin. simpl in Hin.
        destruct Hin as [<- | []]. simpl.
        destruct (map _ _); simpl; discriminate.
Qed.

(** *** Images embedded in tool results *)

Lemma resultPartText_mapPartImage (f : ImageBlockParam.t -> ImageBlockParam.t)
    (parts : list TextOrImage) :
  map resultPartText (map (mapPartImage f) parts) = map resultPartText parts.
Proof.
  rewrite map_map. apply map_ext. now intros [b | b].
Qed.

Lemma toolTurn_mapToolResultImages (f : ImageBlockParam.t -> ImageBlockParam.t)
    (b : ToolResultBlockParam.t) :
  toolTurn (mapToolResultImages f b) = toolTurn b.
Proof.
  unfold toolTurn, toolResultText, mapToolResultImages. simpl.
  destruct (ToolResultBlockParam.content b) as [[s | parts] |]; try reflexivity.
  now rewrite resultPartText_mapPartImage.
Qed.

Lemma partitions_mapBlockToolResultImages
    (f : ImageBlockParam.t -> ImageBlockParam.t)
    (blocks : list ContentBlockParam) :
  toolResultsOf (map (mapBlockToolResultImages f) blocks) =
    map (mapToolResultImages f) (toolResultsOf blocks)
  /\ textImagesOf (map (mapBlockToolResultImages f) blocks) = textImagesOf blocks
  /\ toolUsesOf (map (mapBlockToolResultImages f) blocks) = toolUsesOf blocks.
Proof.
  induction blocks as [| block blocks (IH1 & IH2 & IH3)]; [easy |].
  destruct block; simpl; rewrite ?IH1, ?IH2, ?IH3; easy.
Qed.

Lemma convertMessage_mapMessageToolResultImages
    (f : ImageBlockParam.t -> ImageBlockParam.t) (m : MessageParam.t) :
  convertMessage JSON_stringify [] (mapMessageToolResultImages f m) =
  convertMessage JSON_stringify [] m.
Proof.
  destruct m as [role [s | blocks]]; [reflexivity |].
  unfold convertMessage. simpl.
  destruct (partitions_mapBlockToolResultImages f blocks) as (H1 & H2 & H3).
  destruct (String.eqb role "user").
  - rewrite !convertUserBlocks_spec. simpl. rewrite H1, H2, map_map.
    f_equal. apply map_ext. intros b. apply toolTurn_mapToolResultImages.
  - destruct (String.eqb role "assistant"); [| reflexivity].
    unfold convertAssistantBlocks. rewrite !assistantReducer_fold. simpl.
    now rewrite H2, H3.
Qed.

(** C3. A tool result whose content is a block sequence becomes a "tool"
    turn whose content is one string: the parts joined with newlines, a text
    part giving its text and an image part the placeholder
    "(see following user message for image)".  The images so replaced are
    all collected in [toolResultImages], and no output turn depends on
    them: rewriting the images embedded in tool results in any way leaves
    the whole translation unchanged. *)
Theorem tool_result_blocks_flattened :
  (forall (before after : list MessageParam.t)
          (pre post : list ContentBlockParam)
          (tool_use_id : string) (parts : list TextOrImage),
      convert
        (before
         ++ {| MessageParam.role := "user";
               MessageParam.content :=
                 ContentBlocks
                   (pre
                    ++ ToolResult
                         {| ToolResultBlockParam.tool_use_id := tool_use_id;
                            ToolResultBlockParam.content :=
                              Some (ResultParts parts) |} :: post) |} :: after) =
      convert before
      ++ (map toolTurn (toolResultsOf pre)
          ++ {| ChatCompletionMessageParam.role := "tool";
                ChatCompletionMessageParam.content :=
                  Some (ContentString
                          (join newline
                             (map (fun part =>
                                     match part with
                                     | TextPart b => TextBlockParam.text b
                                     | ImagePart _ =>
                                         "(see following user message for image)"
                                     end) parts)));
                ChatCompletionMessageParam.tool_calls := None;
                ChatCompletionMessageParam.tool_call_id := Some tool_use_id |}
             :: map toolTurn (toolResultsOf post)
          ++ userTurn (textImagesOf (pre ++ post)))
      ++ convert after)
  /\ (forall (output : list ChatCompletionMessageParam.t)
             (blocks : list ContentBlockParam),
         snd (convertUserBlocks output blocks) =
         flat_map imagesOfToolResult (toolResultsOf blocks))
  /\ (forall (f : ImageBlockParam.t -> ImageBlockParam.t)
             (msgs : list MessageParam.t),
         convert (map (mapMessageToolResultImages f) msgs) = convert msgs).
Proof.
  split; [| split].
  - intros before after pre post tool_use_id parts.
    rewrite convertToOpenAiMessages_middle, convertMessage_user.
    rewrite toolResultsOf_app, !textImagesOf_app, map_app. simpl.
    now rewrite <- (app_assoc (map toolTurn (toolResultsOf pre))).
  - intros output blocks. now rewrite convertUserBlocks_spec.
  - intros f msgs. rewrite !convertToOpenAiMessages_flat_map.
    rewrite flat_map_concat_map, map_map, <- flat_map_concat_map.
    apply flat_map_ext. intros m.
    apply convertMessage_mapMessageToolResultImages.
Qed.

(** C4. An image block of a user turn becomes, at its place among the parts
    of the emitted "user" turn, an image part whose URL is
    "data:" + media_type + ";base64," + data for a base64 source (so
    data:image/png;base64,AAAA for image/png and AAAA) and the source's URL
    itself for a url source. *)
Theorem image_block_url :
  (forall media_type data : string,
      getImageUrl
        {| ImageBlockParam.source := Base64ImageSource media_type data |} =
      ContentPartImage
        {| ImageURL.url := "data:" ++ media_type ++ ";base64," ++ data |})
  /\ getImageUrl
       {| ImageBlockParam.source := Base64ImageSource "image/png" "AAAA" |} =
     ContentPartImage {| ImageURL.url := "data:image/png;base64,AAAA" |}
  /\ (forall url : string,
         getImageUrl {| ImageBlockParam.source := URLImageSource url |} =
         ContentPartImage {| ImageURL.url := url |})
  /\ (forall (before after : list MessageParam.t)
             (pre post : list ContentBlockParam) (image : ImageBlockParam.t),
         convert
           (before
            ++ {| MessageParam.role := "user";
                  MessageParam.content :=
                    ContentBlocks (pre ++ Image image :: post) |} :: after) =
         convert before
         ++ (map toolTurn (toolResultsOf (pre ++ post))
             ++ [ {| ChatCompletionMessageParam.role := "user";
                     ChatCompletionMessageParam.content :=
                       Some (ContentParts
                               (map userContentPart (textImagesOf pre)
                                ++ ContentPartImage
                                     {| ImageURL.url :=
                                          match ImageBlockParam.source image with
                                          | Base64ImageSource media_type data =>
                                              "data:" ++ media_type
                                              ++ ";base64," ++ data
                                          | URLImageSource url => url
                                          end |}
                                   :: map userContentPart (textImagesOf post)));
                     ChatCompletionMessageParam.tool_calls := None;
                     ChatCompletionMessageParam.tool_call_id := None |} ])
         ++ convert after).
Proof.
  repeat split; try reflexivity.
  intros before after pre post image.
  rewrite convertToOpenAiMessages_middle, convertMessage_user.
  rewrite !toolResultsOf_app, textImagesOf_app. simpl.
  assert (Hparts :
            userTurn (textImagesOf pre ++ ImagePart image :: textImagesOf post) =
            [ {| ChatCompletionMessageParam.role := "user";
                 ChatCompletionMessageParam.content :=
                   Some (ContentParts
                           (map userContentPart
                              (textImagesOf pre
                               ++ ImagePart image :: textImagesOf post)));
                 ChatCompletionMessageParam.tool_calls := None;
                 ChatCompletionMessageParam.tool_call_id := None |} ]).
  { destruct (textImagesOf pre); reflexivity. }
  rewrite Hparts, !map_app. simpl.
  unfold getImageUrl. destruct (ImageBlockParam.source image); reflexivity.
Qed.

(** C9. A block whose kind its turn's role does not allow is dropped: a
    tool-invocation block in a user turn, and a tool-result block in an
    assistant turn, enter neither partition of their turn, and the
    translation is the one of the input without that block. *)
Theorem disallowed_blocks_dropped :
  (forall (pre post : list ContentBlockParam) (b : ToolUseBlockParam.t)
          (acc : UserPartition),
      fold_left userReducer (pre ++ ToolUse b :: post) acc =
      fold_left userReducer (pre ++ post) acc)
  /\ (forall (pre post : list ContentBlockParam) (b : ToolResultBlockParam.t)
             (acc : AssistantPartition),
         fold_left assistantReducer (pre ++ ToolResult b :: post) acc =
         fold_left assistantReducer (pre ++ post) acc)
  /\ (forall (before after : list MessageParam.t)
             (pre post : list ContentBlockParam) (b : ToolUseBlockParam.t),
         convert
           (before
            ++ {| MessageParam.role := "user";
                  MessageParam.content :=
                    ContentBlocks (pre ++ ToolUse b :: post) |} :: after) =
         convert
           (before
            ++ {| MessageParam.role := "user";
                  MessageParam.content := ContentBlocks (pre ++ post) |}
               :: after))
  /\ (forall (before after : list MessageParam.t)
             (pre post : list ContentBlockParam) (b : ToolResultBlockParam.t),
         convert
           (before
            ++ {| MessageParam.role := "assistant";
                  MessageParam.content :=
                    ContentBlocks (pre ++ ToolResult b :: post) |} :: after) =
         convert
           (before
            ++ {| MessageParam.role := "assistant";
                  MessageParam.content := ContentBlocks (pre ++ post) |}
               :: after)).
Proof.
  assert (Huser : forall pre post b acc,
             fold_left userReducer (pre ++ ToolUse b :: post) acc =
             fold_left userReducer (pre ++ post) acc).
  { intros. now rewrite !fold_left_app. }
  assert (Hassistant : forall pre post b acc,
             fold_left assistantReducer (pre ++ ToolResult b :: post) acc =
             fold_left assistantReducer (pre ++ post) acc).
  { intros. now rewrite !fold_left_app. }
  repeat split; auto.
  - intros before after pre post b.
    rewrite !convertToOpenAiMessages_middle. do 2 f_equal.
    unfold convertMessage, convertUserBlocks. simpl. now rewrite Huser.
  - intros before after pre post b.
    rewrite !convertToOpenAiMessages_middle. do 2 f_equal.
    unfold convertMessage, convertAssistantBlocks. simpl. now rewrite Hassistant.
Qed.

End ForwardProperties.

(** * Properties of the reverse translator *)

Lemma string_or_empty (s : string) : string_or s "" = s.
Proof.
  unfold string_or. destruct (String.eqb_spec s ""); congruence.
Qed.

Lemma number_or_zero (n : Z) : number_or n 0 = n.
Proof.
  unfold number_or. destruct (Z.eqb_spec n 0); congruence.
Qed.

Section ReverseProperties.

Variable JSON_parse : string -> Exn + json.

Lemma toolUseOfToolCall_run (toolCall : ChatCompletionMessageToolCall.t)
    (console : Console) :
  toolUseOfToolCall JSON_parse toolCall console =
  (inr (toolUseBlockOf JSON_parse toolCall),
   console ++ diagnosticsOf JSON_parse toolCall).
Proof.
  unfold toolUseOfToolCall, toolUseBlockOf, inputOf, diagnosticsOf,
    bind, try_catch, call, console_error, ret.
  fold (argumentsText toolCall).
  destruct (JSON_parse (argumentsText toolCall)) as [error | value].
  - reflexivity.
  - now rewrite app_nil_r.
Qed.

Lemma mapJs_toolUseOfToolCall (tool_calls : list ChatCompletionMessageToolCall.t)
    (console : Console) :
  mapJs (toolUseOfToolCall JSON_parse) tool_calls console =
  (inr (map (toolUseBlockOf JSON_parse) tool_calls),
   console ++ flat_map (diagnosticsOf JSON_parse) tool_calls).
Proof.
  revert console.
  induction tool_calls as [| toolCall rest IH]; intros console; simpl.
  - unfold ret. now rewrite app_nil_r.
  - unfold bind at 1. rewrite toolUseOfToolCall_run.
    unfold bind at 1. rewrite IH. unfold ret.
    now rewrite <- app_assoc.
Qed.

(** The reverse translator on a completion with at least one choice: it
    returns normally, with the message of the first choice, and writes the
    diagnostics of that choice's tool calls, in order. *)
Lemma convertToAnthropicMessage_run (completion : ChatCompletion.t)
    (choice : Choice.t) (rest : list Choice.t) (console : Console) :
  ChatCompletion.choices completion = choice :: rest ->
  convertToAnthropicMessage JSON_parse completion console =
  (inr (messageOf JSON_parse completion choice),
   console
   ++ flat_map (diagnosticsOf JSON_parse) (toolCallsOf (Choice.message choice))).
Proof.
  intros Hchoices.
  unfold convertToAnthropicMessage, messageOf, toolCallsOf.
  rewrite Hchoices. unfold firstChoice, bind at 1, ret at 1.
  assert (Hcontent :
            optional_string_or
              (ChatCompletionMessage.content (Choice.message choice)) "" =
            match ChatCompletionMessage.content (Choice.message choice) with
            | Some text => text
            | None => ""
            end).
  { unfold optional_string_or.
    destruct (ChatCompletionMessage.content (Choice.message choice));
      [apply string_or_empty | reflexivity]. }
  assert (Hin :
            optional_number_or
              (usage_prompt_tokens (ChatCompletion.usage completion)) 0 =
            match ChatCompletion.usage completion with
            | Some usage => CompletionUsage.prompt_tokens usage
            | None => 0%Z
            end).
  { destruct (ChatCompletion.usage completion);
      [apply number_or_zero | reflexivity]. }
  assert (Hout :
            optional_number_or
              (usage_completion_tokens (ChatCompletion.usage completion)) 0 =
            match ChatCompletion.usage completion with
            | Some usage => CompletionUsage.completion_tokens usage
            | None => 0%Z
            end).
  { destruct (ChatCompletion.usage completion);
      [apply number_or_zero | reflexivity]. }
  rewrite Hcontent, Hin, Hout.
  destruct (ChatCompletionMessage.tool_calls (Choice.message choice))
    as [[| toolCall tool_calls] |].
  - simpl. unfold ret. now rewrite app_nil_r.
  - change (0 <? List.length (toolCall :: tool_calls))%nat with true.
    cbv iota. unfold bind at 1.
    rewrite (mapJs_toolUseOfToolCall (toolCall :: tool_calls)).
    reflexivity.
  - simpl. unfold ret. now rewrite app_nil_r.
Qed.

(** Opens a goal [exists message console', run = (inr message, console') /\ _]
    with the run of the translator, from the first choice [H]. *)
Ltac returns_normally H :=
  eexists _, _; split; [apply (convertToAnthropicMessage_run _ _ _ _ H) |].

(** C5. The stop reason of the produced message is "end_turn" for the
    finish reason "stop", "max_tokens" for "length", "tool_use" for
    "tool_calls", and null for "content_filter" and for every other value. *)
Theorem finish_reason_mapping (completion : ChatCompletion.t)
    (choice : Choice.t) (rest : list Choice.t) (console : Console) :
  ChatCompletion.choices completion = choice :: rest ->
  exists (message : Message.t) (console' : Console),
    convertToAnthropicMessage JSON_parse completion console =
      (inr message, console')
    /\ (Choice.finish_reason choice = "stop" ->
        Message.stop_reason message = Some "end_turn")
    /\ (Choice.finish_reason choice = "length" ->
        Message.stop_reason message = Some "max_tokens")
    /\ (Choice.finish_reason choice = "tool_calls" ->
        Message.stop_reason message = Some "tool_use")
    /\ (Choice.finish_reason choice = "content_filter" ->
        Message.stop_reason message = None)
    /\ (Choice.finish_reason choice <> "stop" ->
        Choice.finish_reason choice <> "length" ->
        Choice.finish_reason choice <> "tool_calls" ->
        Message.stop_reason message = None).
Proof.
  intros Hchoices.
  returns_normally Hchoices.
  simpl. unfold stopReasonOfFinishReason.
  repeat split.
  - now intros ->.
  - now intros ->.
  - now intros ->.
  - now intros ->.
  - intros Hstop Hlength Htool.
    apply String.eqb_neq in Hstop, Hlength, Htool.
    rewrite Hstop, Hlength, Htool.
    now destruct (String.eqb (Choice.finish_reason choice) "content_filter").
Qed.

(** C6 (as amended). A tool call whose arguments string is not empty and is
    not valid JSON does not make the reverse translator throw: its block, at
    its place among the tool-invocation blocks, has the empty object as
    input, the parse error is written to the console at its place among the
    diagnostics, and the other tool calls and all the other fields are
    translated as usual.  A tool call whose arguments string is the empty
    string also gets the empty object as input, and writes nothing. *)
Theorem malformed_tool_arguments_recovered (completion : ChatCompletion.t)
    (choice : Choice.t) (rest : list Choice.t)
    (pre post : list ChatCompletionMessageToolCall.t)
    (toolCall : ChatCompletionMessageToolCall.t) (console : Console) :
  ChatCompletion.choices completion = choice :: rest ->
  ChatCompletionMessage.tool_calls (Choice.message choice) =
    Some (pre ++ toolCall :: post) ->
  JSON_parse "{}" = inr empty_object ->
  exists message : Message.t,
    message = messageOf JSON_parse completion choice
    /\ Message.content message =
         TextBlock
           (match ChatCompletionMessage.content (Choice.message choice) with
            | Some text => text
            | None => ""
            end) None
         :: map (toolUseBlockOf JSON_parse) pre
         ++ toolUseBlockOf JSON_parse toolCall
            :: map (toolUseBlockOf JSON_parse) post
    /\ convertToAnthropicMessage JSON_parse completion console =
         (inr message,
          console
          ++ flat_map (diagnosticsOf JSON_parse) pre
          ++ diagnosticsOf JSON_parse toolCall
          ++ flat_map (diagnosticsOf JSON_parse) post)
    /\ (forall error : Exn,
           Function.arguments (ChatCompletionMessageToolCall.function toolCall)
             <> "" ->
           JSON_parse
             (Function.arguments
                (ChatCompletionMessageToolCall.function toolCall)) = inl error ->
           toolUseBlockOf JSON_parse toolCall =
             ToolUseBlock
               (ChatCompletionMessageToolCall.id toolCall)
               (Function.name (ChatCompletionMessageToolCall.function toolCall))
               empty_object
           /\ diagnosticsOf JSON_parse toolCall =
                [ConsoleError "Failed to parse tool arguments:" error])
    /\ (Function.arguments (ChatCompletionMessageToolCall.function toolCall)
          = "" ->
        toolUseBlockOf JSON_parse toolCall =
          ToolUseBlock
            (ChatCompletionMessageToolCall.id toolCall)
            (Function.name (ChatCompletionMessageToolCall.function toolCall))
            empty_object
        /\ diagnosticsOf JSON_parse toolCall = []).
Proof.
  intros Hchoices Hcalls Hempty.
  exists (messageOf JSON_parse completion choice).
  split; [reflexivity |]. split; [| split; [| split]].
  - unfold messageOf, toolCallsOf. simpl. rewrite Hcalls.
    now rewrite map_app.
  - rewrite (convertToAnthropicMessage_run _ _ _ _ Hchoices).
    unfold toolCallsOf. rewrite Hcalls.
    now rewrite flat_map_app.
  - intros error Hnonempty Hparse.
    unfold toolUseBlockOf, inputOf, diagnosticsOf, argumentsText, string_or.
    apply String.eqb_neq in Hnonempty. rewrite Hnonempty, Hparse.
    now split.
  - intros Harguments.
    unfold toolUseBlockOf, inputOf, diagnosticsOf, argumentsText, string_or.
    rewrite Harguments. simpl. rewrite Hempty.
    now split.
Qed.

(** C7. The usage of the produced message has both cache counters at 0, for
    every completion; and its input and output token counts are 0 when the
    completion has no usage object. *)
Theorem usage_defaults (completion : ChatCompletion.t)
    (choice : Choice.t) (rest : list Choice.t) (console : Console) :
  ChatCompletion.choices completion = choice :: rest ->
  exists (message : Message.t) (console' : Console),
    convertToAnthropicMessage JSON_parse completion console =
      (inr message, console')
    /\ Usage.cache_creation_input_tokens (Message.usage message) = 0%Z
    /\ Usage.cache_read_input_tokens (Message.usage message) = 0%Z
    /\ (ChatCompletion.usage completion = None ->
        Usage.input_tokens (Message.usage message) = 0%Z
        /\ Usage.output_tokens (Message.usage message) = 0%Z).
Proof.
  intros Hchoices.
  returns_normally Hchoices.
  simpl. split; [reflexivity |]. split; [reflexivity |].
  intros Husage. now rewrite Husage.
Qed.

(** C10. The model of the produced message is the completion's model,
    unchanged. *)
Theorem model_copied (completion : ChatCompletion.t)
    (choice : Choice.t) (rest : list Choice.t) (console : Console) :
  ChatCompletion.choices completion = choice :: rest ->
  exists (message : Message.t) (console' : Console),
    convertToAnthropicMessage JSON_parse completion console =
      (inr message, console')
    /\ Message.model message = ChatCompletion.model completion.
Proof.
  intros Hchoices.
  returns_normally Hchoices.
  reflexivity.
Qed.

End ReverseProperties.


(** The reverse translator needs a first choice: without one it throws, before
    it writes anything. *)
Lemma first_choice_required (JSON_parse : string -> Exn + json)
    (completion : ChatCompletion.t) (console : Console) :
  ChatCompletion.choices completion = [] ->
  convertToAnthropicMessage JSON_parse completion console =
  (inl (TypeError "Cannot read properties of undefined"), console).
Proof.
  intros Hchoices. unfold convertToAnthropicMessage. now rewrite Hchoices.
Qed.

(** C8. On well-formed input neither direction fails.  The forward translator
    has a result on every sequence of turns, the concatenation of what each
    turn contributes.  The reverse translator, on a completion with at least
    one choice, returns normally; what it writes to the console is exactly
    one entry per tool call of the first choice whose arguments do not parse,
    the only failure it meets and recovers from. *)
Theorem translation_never_fails
    (JSON_stringify : json -> string) (JSON_parse : string -> Exn + json)
    (anthropicMessages : list MessageParam.t)
    (completion : ChatCompletion.t) (console : Console) :
  ChatCompletion.choices completion <> [] ->
  (exists output : list ChatCompletionMessageParam.t,
      convertToOpenAiMessages JSON_stringify anthropicMessages = output
      /\ output = flat_map (convertMessage JSON_stringify []) anthropicMessages)
  /\ (exists (choice : Choice.t) (message : Message.t) (diagnostics : Console),
         hd_error (ChatCompletion.choices completion) = Some choice
         /\ convertToAnthropicMessage JSON_parse completion console =
              (inr message, console ++ diagnostics)
         /\ diagnostics =
              flat_map (diagnosticsOf JSON_parse)
                (toolCallsOf (Choice.message choice))
         /\ Forall
              (fun entry : ConsoleEntry =>
                 exists (toolCall : ChatCompletionMessageToolCall.t) (error : Exn),
                   In toolCall (toolCallsOf (Choice.message choice))
                   /\ JSON_parse (argumentsText toolCall) = inl error
                   /\ entry = ConsoleError "Failed to parse tool arguments:" error)
              diagnostics).
Proof.
  intros Hchoices. split.
  - eexists. split; [reflexivity |].
    apply convertToOpenAiMessages_flat_map.
  - destruct (ChatCompletion.choices completion) as [| choice rest] eqn:Hfirst;
      [contradiction |].
    exists choice, (messageOf JSON_parse completion choice),
      (flat_map (diagnosticsOf JSON_parse) (toolCallsOf (Choice.message choice))).
    repeat split.
    + apply (convertToAnthropicMessage_run _ _ _ _ _ Hfirst).
    + apply Forall_forall. intros entry Hentry.
      apply in_flat_map in Hentry. destruct Hentry as [toolCall [Hin Hentry]].
      unfold diagnosticsOf in Hentry.
      destruct (JSON_parse (argumentsText toolCall)) as [error | value] eqn:Hparse.
      * destruct Hentry as [<- | []]. now exists toolCall, error.
      * contradiction.
Qed.

(** * The translators at work on the sample inputs *)

Example parse_accepts :
  JSON.parse "{}" = inr empty_object
  /\ JSON.parse " [1, -2.50e1, true, false, null, [[]], {}] " =
       inr (JArray [ JNumber 1 0; JNumber (-250) (-1); JBool true; JBool false;
                     JNull; JArray [JArray []]; JObject [] ])
  /\ JSON.parse Sample.path_arguments = inr (JObject [("path", JString "a.txt")]).
Proof. repeat split; vm_compute; reflexivity. Qed.

Example parse_rejects :
  Forall (fun text => exists message, JSON.parse text = inl (SyntaxError message))
    [ ""; " "; "not json"; "{"; "[1,]"; "01"; "1."; "-"; "nul"; "{} x"; "{a:1}" ].
Proof. repeat constructor; eexists; vm_compute; reflexivity. Qed.

Example conversation_translated :
  convertToOpenAiMessages JSON.stringify Sample.conversation =
  [ {| ChatCompletionMessageParam.role := "user";
       ChatCompletionMessageParam.content := Some (ContentString "Read both files");
       ChatCompletionMessageParam.tool_calls := None;
       ChatCompletionMessageParam.tool_call_id := None |};
    {| ChatCompletionMessageParam.role := "assistant";
       ChatCompletionMessageParam.content :=
         Some (ContentString ("Reading" ++ newline ++ "both"));
       ChatCompletionMessageParam.tool_calls :=
         Some [ {| ChatCompletionMessageToolCall.id := "toolu_1";
                   ChatCompletionMessageToolCall.type := "function";
                   ChatCompletionMessageToolCall.function :=
                     {| Function.name := "read_file";
                        Function.arguments := Sample.path_arguments |} |};
                {| ChatCompletionMessageToolCall.id := "toolu_2";
                   ChatCompletionMessageToolCall.type := "function";
                   ChatCompletionMessageToolCall.function :=
                     {| Function.name := "read_file";
                        Function.arguments := "{}" |} |} ];
       ChatCompletionMessageParam.tool_call_id := None |};
    {| ChatCompletionMessageParam.role := "tool";
       ChatCompletionMessageParam.content := Some (ContentString "contents of a");
       ChatCompletionMessageParam.tool_calls := None;
       ChatCompletionMessageParam.tool_call_id := Some "toolu_1" |};
    {| ChatCompletionMessageParam.role := "tool";
       ChatCompletionMessageParam.content :=
         Some (ContentString
                 ("first" ++ newline ++ "(see following user message for image)"
                  ++ newline ++ "last"));
       ChatCompletionMessageParam.tool_calls := None;
       ChatCompletionMessageParam.tool_call_id := Some "toolu_2" |};
    {| ChatCompletionMessageParam.role := "user";
       ChatCompletionMessageParam.content :=
         Some (ContentParts
                 [ ContentPartText "thanks";
                   ContentPartImage
                     {| ImageURL.url := "data:image/png;base64,AAAA" |};
                   ContentPartImage
                     {| ImageURL.url := "https://example.com/a.png" |} ]);
       ChatCompletionMessageParam.tool_calls := None;
       ChatCompletionMessageParam.tool_call_id := None |} ].
Proof. vm_compute. reflexivity. Qed.

Example completion_translated :
  convertToAnthropicMessage JSON.parse Sample.completion [] =
  (inr {| Message.id := "chatcmpl-1";
          Message.type := "message";
          Message.role := "assistant";
          Message.content :=
            [ TextBlock "" None;
              ToolUseBlock "call_1" "read_file" (JObject []);
              ToolUseBlock "call_2" "read_file" (JObject []);
              ToolUseBlock "call_3" "read_file" (JObject []);
              ToolUseBlock "call_4" "read_file"
                (JObject [("path", JString "a.txt")]) ];
          Message.model := "gpt-4o";
          Message.stop_reason := Some "tool_use";
          Message.stop_sequence := None;
          Message.usage :=
            {| Usage.input_tokens := 0;
               Usage.output_tokens := 0;
               Usage.cache_creation_input_tokens := 0;
               Usage.cache_read_input_tokens := 0 |} |},
   [ ConsoleError "Failed to parse tool arguments:"
       (SyntaxError "Unexpected token or end of JSON input") ]).
Proof. vm_compute. reflexivity. Qed.

Example text_completion_translated :
  convertToAnthropicMessage JSON.parse Sample.text_completion [] =
  (inr {| Message.id := "chatcmpl-2";
          Message.type := "message";
          Message.role := "assistant";
          Message.content := [ TextBlock "Hello" None ];
          Message.model := "gpt-4o-mini";
          Message.stop_reason := None;
          Message.stop_sequence := None;
          Message.usage :=
            {| Usage.input_tokens := 12;
               Usage.output_tokens := 0;
               Usage.cache_creation_input_tokens := 0;
               Usage.cache_read_input_tokens := 0 |} |},
   []).
Proof. vm_compute. reflexivity. Qed.

(** C5 at the sample completions: "tool_calls" gives "tool_use", and the
    unlisted "function_call" gives null. *)
Lemma finish_reason_mapping_witness :
  (exists (message : Message.t) (console' : Console),
      convertToAnthropicMessage JSON.parse Sample.completion [] =
        (inr message, console')
      /\ Message.stop_reason message = Some "tool_use")
  /\ (exists (message : Message.t) (console' : Console),
         convertToAnthropicMessage JSON.parse Sample.text_completion [] =
           (inr message, console')
         /\ Message.stop_reason message = None).
Proof.
  split.
  - destruct (finish_reason_mapping JSON.parse Sample.completion _ _ [] eq_refl)
      as (message & console' & Hrun & _ & _ & Htool & _).
    exists message, console'. split; [exact Hrun | apply Htool; reflexivity].
  - destruct (finish_reason_mapping JSON.parse Sample.text_completion _ _ [] eq_refl)
      as (message & console' & Hrun & _ & _ & _ & _ & Hother).
    exists message, console'.
    split; [exact Hrun | apply Hother; simpl; discriminate].
Defined.

(** C6 (as amended) at the sample completion: the call with the arguments
    "not json" gets the empty object and one console entry; the call with
    empty arguments gets the empty object and none. *)
Lemma malformed_tool_arguments_recovered_witness :
  exists message : Message.t,
    convertToAnthropicMessage JSON.parse Sample.completion [] =
      (inr message,
       [ ConsoleError "Failed to parse tool arguments:"
           (SyntaxError "Unexpected token or end of JSON input") ])
    /\ Message.content message =
         [ TextBlock "" None;
           ToolUseBlock "call_1" "read_file" empty_object;
           ToolUseBlock "call_2" "read_file" empty_object;
           ToolUseBlock "call_3" "read_file" empty_object;
           ToolUseBlock "call_4" "read_file" (JObject [("path", JString "a.txt")]) ].
Proof.
  destruct (malformed_tool_arguments_recovered JSON.parse Sample.completion
              _ _ [] _ (Sample.toolCall "call_1" "not json") []
              eq_refl eq_refl eq_refl)
    as (message & _ & Hcontent & Hrun & Hbad & _).
  destruct (Hbad (SyntaxError "Unexpected token or end of JSON input"))
    as [Hblock Hentry]; [simpl; discriminate | reflexivity |].
  exists message. split.
  - rewrite Hrun, Hentry. reflexivity.
  - rewrite Hcontent, Hblock. reflexivity.
Defined.

(** C6 as first stated fails on the empty string: it is not valid JSON, and
    yet the reverse translator writes nothing to the console for a tool call
    whose arguments are the empty string. *)
Lemma empty_arguments_not_reported :
  JSON.parse "" = inl (SyntaxError "Unexpected token or end of JSON input")
  /\ convertToAnthropicMessage JSON.parse Sample.empty_arguments_completion [] =
       (inr {| Message.id := "chatcmpl-3";
               Message.type := "message";
               Message.role := "assistant";
               Message.content :=
                 [ TextBlock "" None;
                   ToolUseBlock "call_1" "read_file" empty_object ];
               Message.model := "gpt-4o";
               Message.stop_reason := Some "tool_use";
               Message.stop_sequence := None;
               Message.usage :=
                 {| Usage.input_tokens := 0;
                    Usage.output_tokens := 0;
                    Usage.cache_creation_input_tokens := 0;
                    Usage.cache_read_input_tokens := 0 |} |},
        [])
  /\ (forall entry : ConsoleEntry,
         ~ In entry
             (snd (convertToAnthropicMessage JSON.parse
                     Sample.empty_arguments_completion []))).
Proof.
  split; [| split].
  - vm_compute. reflexivity.
  - vm_compute. reflexivity.
  - intros entry Hin. vm_compute in Hin. exact Hin.
Qed.

(** C7 at the sample completion, which has no usage object. *)
Lemma usage_defaults_witness :
  exists (message : Message.t) (console' : Console),
    convertToAnthropicMessage JSON.parse Sample.completion [] =
      (inr message, console')
    /\ Message.usage message =
         {| Usage.input_tokens := 0;
            Usage.output_tokens := 0;
            Usage.cache_creation_input_tokens := 0;
            Usage.cache_read_input_tokens := 0 |}.
Proof.
  destruct (usage_defaults JSON.parse Sample.completion _ _ [] eq_refl)
    as (message & console' & Hrun & Hcreation & Hread & Habsent).
  destruct (Habsent eq_refl) as [Hinput Houtput].
  exists message, console'. split; [exact Hrun |].
  destruct message as [? ? ? ? ? ? ? [input output creation read]].
  simpl in *. now subst.
Defined.

(** C10 at the sample completion. *)
Lemma model_copied_witness :
  exists (message : Message.t) (console' : Console),
    convertToAnthropicMessage JSON.parse Sample.completion [] =
      (inr message, console')
    /\ Message.model message = "gpt-4o".
Proof.
  exact (model_copied JSON.parse Sample.completion _ _ [] eq_refl).
Defined.

(** C8 at the sample conversation and the sample completion. *)
Lemma translation_never_fails_witness :
  (exists output : list ChatCompletionMessageParam.t,
      convertToOpenAiMessages JSON.stringify Sample.conversation = output
      /\ List.length output = 5%nat)
  /\ (exists (message : Message.t) (diagnostics : Console),
         convertToAnthropicMessage JSON.parse Sample.completion [] =
           (inr message, diagnostics)
         /\ List.length diagnostics = 1%nat).
Proof.
  assert (Hchoices : ChatCompletion.choices Sample.completion <> [])
    by (simpl; discriminate).
  destruct (translation_never_fails JSON.stringify JSON.parse
              Sample.conversation Sample.completion [] Hchoices)
    as [(output & Hforward & Hturns)
          (choice & message & diagnostics & Hfirst & Hrun & Hdiagnostics & _)].
  split.
  - exists output. split; [exact Hforward |].
    rewrite Hturns. reflexivity.
  - exists message, diagnostics. split; [exact Hrun |].
    injection Hfirst as <-. rewrite Hdiagnostics. reflexivity.
Defined.

(** * Further properties of the forward translator *)

Section ForwardFurther.

Variable JSON_stringify : json -> string.

#[local] Abbreviation convert := (convertToOpenAiMessages JSON_stringify).

(** What one turn contributes is one of: its string content under its own
    role; tool turns followed by at most one user turn; one assistant turn;
    nothing. *)
Lemma convertMessage_cases (m : MessageParam.t) :
  (exists s,
      MessageParam.content m = Anthropic.ContentString s
      /\ convertMessage JSON_stringify [] m =
           [ {| ChatCompletionMessageParam.role := MessageParam.role m;
                ChatCompletionMessageParam.content := Some (ContentString s);
                ChatCompletionMessageParam.tool_calls := None;
                ChatCompletionMessageParam.tool_call_id := None |} ])
  \/ (exists blocks,
         MessageParam.content m = ContentBlocks blocks
         /\ convertMessage JSON_stringify [] m =
              map toolTurn (toolResultsOf blocks) ++ userTurn (textImagesOf blocks))
  \/ (exists blocks,
         MessageParam.content m = ContentBlocks blocks
         /\ convertMessage JSON_stringify [] m =
              convertMessage JSON_stringify []
                {| MessageParam.role := "assistant";
                   MessageParam.content := ContentBlocks blocks |})
  \/ (exists blocks,
         MessageParam.content m = ContentBlocks blocks
         /\ convertMessage JSON_stringify [] m = []).
Proof.
  destruct m as [role [s | blocks]].
  - left. now exists s.
  - right. unfold convertMessage. simpl.
    destruct (String.eqb role "user").
    + left. exists blocks. now rewrite convertUserBlocks_spec.
    + destruct (String.eqb role "assistant").
      * right. left. now exists blocks.
      * right. right. now exists blocks.
Qed.

Lemma convertToOpenAiMessages_tool_result_at
    (before after : list MessageParam.t) (pre post : list ContentBlockParam)
    (b : ToolResultBlockParam.t) :
  convert
    (before
     ++ {| MessageParam.role := "user";
           MessageParam.content := ContentBlocks (pre ++ ToolResult b :: post) |}
        :: after) =
  convert before
  ++ (map toolTurn (toolResultsOf pre)
      ++ toolTurn b :: map toolTurn (toolResultsOf post)
      ++ userTurn (textImagesOf (pre ++ post)))
  ++ convert after.
Proof.
  rewrite convertToOpenAiMessages_middle, convertMessage_user.
  autorewrite with partitions. rewrite map_app. simpl.
  now rewrite <- (app_assoc (map toolTurn (toolResultsOf pre))).
Qed.

(** X1. Turns whose content is a plain string pass through: a conversation
    made of such turns is translated turn by turn, each to one turn with the
    same role and the same string, in the same order. *)
Theorem string_turns_pass_through (turns : list (string * string)) :
  convertToOpenAiMessages JSON_stringify
    (map (fun turn =>
            {| MessageParam.role := fst turn;
               MessageParam.content := Anthropic.ContentString (snd turn) |})
       turns) =
  map (fun turn =>
         {| ChatCompletionMessageParam.role := fst turn;
            ChatCompletionMessageParam.content := Some (ContentString (snd turn));
            ChatCompletionMessageParam.tool_calls := None;
            ChatCompletionMessageParam.tool_call_id := None |})
    turns.
Proof.
  rewrite convertToOpenAiMessages_flat_map.
  induction turns as [| turn turns IH]; simpl; [reflexivity |].
  now rewrite IH.
Qed.

(** X2. Turns are translated independently of one another: the translation
    of two conversations put end to end is the two translations put end to
    end, so the translation of a longer conversation extends the translation
    of any of its prefixes. *)
Theorem translation_distributes_over_append (xs ys : list MessageParam.t) :
  convertToOpenAiMessages JSON_stringify (xs ++ ys) = convert xs ++ convert ys
  /\ firstn (List.length (convert xs)) (convert (xs ++ ys)) = convert xs.
Proof.
  rewrite convertToOpenAiMessages_app. split; [reflexivity |].
  rewrite firstn_app, Nat.sub_diag, firstn_all. simpl.
  apply app_nil_r.
Qed.

(** X3. A user turn whose blocks are all tool invocations (or that has no
    block at all) leaves no trace in the output, whereas an assistant turn
    whose blocks are all tool results (or that has no block) still yields an
    assistant turn, one with neither content nor tool calls. *)
Theorem turns_without_allowed_blocks :
  (forall (before after : list MessageParam.t) (uses : list ToolUseBlockParam.t),
      convert
        (before
         ++ {| MessageParam.role := "user";
               MessageParam.content := ContentBlocks (map ToolUse uses) |}
            :: after) =
      convert (before ++ after))
  /\ (forall (before after : list MessageParam.t)
             (results : list ToolResultBlockParam.t),
         convert
           (before
            ++ {| MessageParam.role := "assistant";
                  MessageParam.content := ContentBlocks (map ToolResult results) |}
               :: after) =
         convert before
         ++ {| ChatCompletionMessageParam.role := "assistant";
               ChatCompletionMessageParam.content := None;
               ChatCompletionMessageParam.tool_calls := None;
               ChatCompletionMessageParam.tool_call_id := None |}
            :: convert after).
Proof.
  split.
  - intros before after uses.
    rewrite convertToOpenAiMessages_middle, convertMessage_user.
    assert (Hresults : toolResultsOf (map ToolUse uses) = [])
      by (induction uses; simpl; auto).
    assert (Hparts : textImagesOf (map ToolUse uses) = [])
      by (induction uses; simpl; auto).
    rewrite Hresults, Hparts. simpl.
    now rewrite convertToOpenAiMessages_app.
  - intros before after results.
    rewrite convertToOpenAiMessages_middle, convertMessage_assistant.
    assert (Huses : toolUsesOf (map ToolResult results) = [])
      by (induction results; simpl; auto).
    assert (Hparts : textImagesOf (map ToolResult results) = [])
      by (induction results; simpl; auto).
    now rewrite Huses, Hparts.
Qed.

(** X4. In every emitted turn the optional fields agree with the role: a
    turn that carries a [tool_call_id] has the role "tool", a string content
    and no [tool_calls]; a turn that carries [tool_calls] has the role
    "assistant" and no [tool_call_id]. *)
Theorem emitted_fields_match_role (msgs : list MessageParam.t)
    (m : ChatCompletionMessageParam.t) :
  In m (convert msgs) ->
  (forall id : string,
      ChatCompletionMessageParam.tool_call_id m = Some id ->
      ChatCompletionMessageParam.role m = "tool"
      /\ ChatCompletionMessageParam.tool_calls m = None
      /\ exists s, ChatCompletionMessageParam.content m = Some (ContentString s))
  /\ (forall calls : list ChatCompletionMessageToolCall.t,
         ChatCompletionMessageParam.tool_calls m = Some calls ->
         ChatCompletionMessageParam.role m = "assistant"
         /\ ChatCompletionMessageParam.tool_call_id m = None).
Proof.
  intros Hin.
  rewrite convertToOpenAiMessages_flat_map in Hin.
  apply in_flat_map in Hin. destruct Hin as [turn [_ Hin]].
  destruct (convertMessage_cases turn)
    as [(s & _ & Hturn) | [(blocks & _ & Hturn)
                          | [(blocks & _ & Hturn) | (blocks & _ & Hturn)]]];
    rewrite Hturn in Hin.
  - destruct Hin as [<- | []]. split; intros ? H; discriminate H.
  - apply in_app_or in Hin. destruct Hin as [Hin | Hin].
    + apply in_map_iff in Hin. destruct Hin as [b [<- _]].
      split; intros ? H; [| discriminate H].
      repeat split. now eexists.
    + destruct (textImagesOf blocks); simpl in Hin; [contradiction |].
      destruct Hin as [<- | []]. split; intros ? H; discriminate H.
  - rewrite convertMessage_assistant in Hin.
    destruct Hin as [<- | []]. split; intros ? H; [discriminate H |].
    now split.
  - contradiction.
Qed.

(** X5. The translator never emits an empty array of content parts: a turn
    whose content is a sequence of parts has the role "user" and at least one
    part. *)
Theorem content_parts_never_empty (msgs : list MessageParam.t)
    (m : ChatCompletionMessageParam.t)
    (parts : list ChatCompletionContentPart) :
  In m (convert msgs) ->
  ChatCompletionMessageParam.content m = Some (ContentParts parts) ->
  ChatCompletionMessageParam.role m = "user" /\ parts <> [].
Proof.
  intros Hin Hcontent.
  rewrite convertToOpenAiMessages_flat_map in Hin.
  apply in_flat_map in Hin. destruct Hin as [turn [_ Hin]].
  destruct (convertMessage_cases turn)
    as [(s & _ & Hturn) | [(blocks & _ & Hturn)
                          | [(blocks & _ & Hturn) | (blocks & _ & Hturn)]]];
    rewrite Hturn in Hin.
  - destruct Hin as [<- | []]. discriminate Hcontent.
  - apply in_app_or in Hin. destruct Hin as [Hin | Hin].
    + apply in_map_iff in Hin. destruct Hin as [b [<- _]]. discriminate Hcontent.
    + destruct (textImagesOf blocks) as [| part rest]; simpl in Hin;
        [contradiction |].
      destruct Hin as [<- | []]. simpl in Hcontent.
      injection Hcontent as <-. split; [reflexivity | discriminate].
  - rewrite convertMessage_assistant in Hin.
    destruct Hin as [<- | []]. simpl in Hcontent.
    destruct (textImagesOf blocks); discriminate Hcontent.
  - contradiction.
Qed.

(** X6. The content of a tool result that is a string is passed on as it
    is; an absent content and an empty sequence of parts both give the empty
    string.  In each case the tool turn stands at its block's place. *)
Theorem tool_result_string_or_missing
    (before after : list MessageParam.t) (pre post : list ContentBlockParam)
    (tool_use_id : string) (content : option ToolResultContent) (s : string) :
  content = Some (ResultString s)
  \/ (content = None /\ s = "")
  \/ (content = Some (ResultParts []) /\ s = "") ->
  convert
    (before
     ++ {| MessageParam.role := "user";
           MessageParam.content :=
             ContentBlocks
               (pre
                ++ ToolResult
                     {| ToolResultBlockParam.tool_use_id := tool_use_id;
                        ToolResultBlockParam.content := content |} :: post) |}
        :: after) =
  convert before
  ++ (map toolTurn (toolResultsOf pre)
      ++ {| ChatCompletionMessageParam.role := "tool";
            ChatCompletionMessageParam.content := Some (ContentString s);
            ChatCompletionMessageParam.tool_calls := None;
            ChatCompletionMessageParam.tool_call_id := Some tool_use_id |}
         :: map toolTurn (toolResultsOf post)
      ++ userTurn (textImagesOf (pre ++ post)))
  ++ convert after.
Proof.
  intros Hcontent.
  rewrite convertToOpenAiMessages_tool_result_at.
  destruct Hcontent as [-> | [[-> ->] | [-> ->]]]; reflexivity.
Qed.

(** X7. The translation has at most one turn per input turn, plus one per
    tool-result block. *)
Theorem output_length_bound (msgs : list MessageParam.t) :
  (List.length (convert msgs)
   <= List.length msgs + list_sum (map toolResultCount msgs))%nat.
Proof.
  rewrite convertToOpenAiMessages_flat_map.
  induction msgs as [| turn msgs IH]; simpl; [lia |].
  rewrite length_app.
  assert (Hturn :
            (List.length (convertMessage JSON_stringify [] turn)
             <= 1 + toolResultCount turn)%nat).
  { unfold toolResultCount.
    destruct (convertMessage_cases turn)
      as [(s & -> & ->) | [(blocks & -> & ->)
                          | [(blocks & -> & ->) | (blocks & -> & ->)]]].
    - simpl. lia.
    - rewrite length_app, length_map.
      destruct (textImagesOf blocks); simpl; lia.
    - rewrite convertMessage_assistant. simpl. lia.
    - simpl. lia. }
  lia.
Qed.

End ForwardFurther.

(** * Further properties of the reverse translator *)

Section ReverseFurther.

Variable JSON_parse : string -> Exn + json.

Lemma toolUseBlockOf_shape (calls : list ChatCompletionMessageToolCall.t) :
  Forall2
    (fun call block =>
       exists input : json,
         block =
         ToolUseBlock
           (ChatCompletionMessageToolCall.id call)
           (Function.name (ChatCompletionMessageToolCall.function call))
           input)
    calls (map (toolUseBlockOf JSON_parse) calls).
Proof.
  induction calls as [| call calls IH]; simpl; constructor; [| exact IH].
  now eexists.
Qed.

Lemma diagnosticsOf_valid (calls : list ChatCompletionMessageToolCall.t) :
  (forall call, In call calls ->
                exists value, JSON_parse (argumentsText call) = inr value) ->
  flat_map (diagnosticsOf JSON_parse) calls = [].
Proof.
  induction calls as [| call calls IH]; intros Hvalid; simpl; [reflexivity |].
  rewrite IH by (intros c Hc; apply Hvalid; now right).
  destruct (Hvalid call (or_introl eq_refl)) as [value Hvalue].
  unfold diagnosticsOf. now rewrite Hvalue.
Qed.

(** X8. The produced message has a fixed envelope and a fixed layout: the
    completion's id, the type "message", the role of the first choice's
    message and no stop sequence; its content always starts with one text
    block (the completion's text, or the empty string when it has none),
    followed by exactly one tool-invocation block per tool call, in the
    calls' order, each with its call's id and function name. *)
Theorem message_shape (completion : ChatCompletion.t)
    (choice : Choice.t) (rest : list Choice.t) (console : Console) :
  ChatCompletion.choices completion = choice :: rest ->
  exists (message : Message.t) (console' : Console) (blocks : list ContentBlock),
    convertToAnthropicMessage JSON_parse completion console =
      (inr message, console')
    /\ Message.id message = ChatCompletion.id completion
    /\ Message.type message = "message"
    /\ Message.role message = ChatCompletionMessage.role (Choice.message choice)
    /\ Message.stop_sequence message = None
    /\ Message.content message =
         TextBlock
           (match ChatCompletionMessage.content (Choice.message choice) with
            | Some text => text
            | None => ""
            end) None
         :: blocks
    /\ Forall2
         (fun call block =>
            exists input : json,
              block =
              ToolUseBlock
                (ChatCompletionMessageToolCall.id call)
                (Function.name (ChatCompletionMessageToolCall.function call))
                input)
         (toolCallsOf (Choice.message choice)) blocks.
Proof.
  intros Hchoices.
  exists (messageOf JSON_parse completion choice).
  eexists. exists (map (toolUseBlockOf JSON_parse) (toolCallsOf (Choice.message choice))).
  split; [apply (convertToAnthropicMessage_run _ _ _ _ _ Hchoices) |].
  repeat (split; [reflexivity |]).
  apply toolUseBlockOf_shape.
Qed.

(** X9. Only the first choice is read: two completions that differ only in
    their later choices give the same message and the same console. *)
Theorem later_choices_ignored (id model : string)
    (usage : option CompletionUsage.t) (choice : Choice.t)
    (rest rest' : list Choice.t) (console : Console) :
  convertToAnthropicMessage JSON_parse
    {| ChatCompletion.id := id;
       ChatCompletion.choices := choice :: rest;
       ChatCompletion.model := model;
       ChatCompletion.usage := usage |} console =
  convertToAnthropicMessage JSON_parse
    {| ChatCompletion.id := id;
       ChatCompletion.choices := choice :: rest';
       ChatCompletion.model := model;
       ChatCompletion.usage := usage |} console.
Proof.
  match goal with
  | |- convertToAnthropicMessage _ ?c1 _ = convertToAnthropicMessage _ ?c2 _ =>
      rewrite (convertToAnthropicMessage_run JSON_parse c1 choice rest console eq_refl),
        (convertToAnthropicMessage_run JSON_parse c2 choice rest' console eq_refl)
  end.
  reflexivity.
Qed.

(** X10. The reverse translator throws exactly when the completion has no
    choice: without a choice it throws a [TypeError] and leaves the console
    as it was, and whenever it throws the completion had no choice (a tool
    call whose arguments do not parse never makes it throw). *)
Theorem throws_only_without_choice (completion : ChatCompletion.t)
    (console : Console) :
  (ChatCompletion.choices completion = [] ->
   convertToAnthropicMessage JSON_parse completion console =
   (inl (TypeError "Cannot read properties of undefined"), console))
  /\ (forall (e : Exn) (console' : Console),
         convertToAnthropicMessage JSON_parse completion console =
           (inl e, console') ->
         ChatCompletion.choices completion = []).
Proof.
  split.
  - intros Hchoices. unfold convertToAnthropicMessage. now rewrite Hchoices.
  - intros e console' Hthrows.
    destruct (ChatCompletion.choices completion) as [| choice rest] eqn:Hchoices;
      [reflexivity |].
    rewrite (convertToAnthropicMessage_run _ _ _ _ _ Hchoices) in Hthrows.
    discriminate Hthrows.
Qed.

(** X11. A usage object is passed on as it is: the input and output token
    counts are the completion's prompt and completion token counts, whatever
    they are (a count of zero included). *)
Theorem usage_passes_through (completion : ChatCompletion.t)
    (choice : Choice.t) (rest : list Choice.t)
    (usage : CompletionUsage.t) (console : Console) :
  ChatCompletion.choices completion = choice :: rest ->
  ChatCompletion.usage completion = Some usage ->
  exists (message : Message.t) (console' : Console),
    convertToAnthropicMessage JSON_parse completion console =
      (inr message, console')
    /\ Usage.input_tokens (Message.usage message) =
         CompletionUsage.prompt_tokens usage
    /\ Usage.output_tokens (Message.usage message) =
         CompletionUsage.completion_tokens usage.
Proof.
  intros Hchoices Husage.
  eexists _, _.
  split; [apply (convertToAnthropicMessage_run _ _ _ _ _ Hchoices) |].
  simpl. now rewrite Husage.
Qed.

(** X12. When the arguments of every tool call parse, nothing is written to
    the console, and every tool-invocation block carries the parsed value of
    its call's arguments (of the text of the empty object for empty
    arguments). *)
Theorem valid_arguments_silent (completion : ChatCompletion.t)
    (choice : Choice.t) (rest : list Choice.t) (console : Console) :
  ChatCompletion.choices completion = choice :: rest ->
  (forall call : ChatCompletionMessageToolCall.t,
      In call (toolCallsOf (Choice.message choice)) ->
      exists value : json, JSON_parse (argumentsText call) = inr value) ->
  exists (message : Message.t) (text : string) (blocks : list ContentBlock),
    convertToAnthropicMessage JSON_parse completion console =
      (inr message, console)
    /\ Message.content message = TextBlock text None :: blocks
    /\ Forall2
         (fun call block =>
            exists value : json,
              JSON_parse (argumentsText call) = inr value
              /\ block =
                 ToolUseBlock
                   (ChatCompletionMessageToolCall.id call)
                   (Function.name (ChatCompletionMessageToolCall.function call))
                   value)
         (toolCallsOf (Choice.message choice)) blocks.
Proof.
  intros Hchoices Hvalid.
  exists (messageOf JSON_parse completion choice).
  eexists.
  exists (map (toolUseBlockOf JSON_parse) (toolCallsOf (Choice.message choice))).
  split; [| split; [reflexivity |]].
  - rewrite (convertToAnthropicMessage_run _ _ _ _ _ Hchoices).
    rewrite (diagnosticsOf_valid _ Hvalid). now rewrite app_nil_r.
  - induction (toolCallsOf (Choice.message choice)) as [| call calls IH];
      simpl; constructor.
    + destruct (Hvalid call (or_introl eq_refl)) as [value Hvalue].
      exists value. split; [exact Hvalue |].
      unfold toolUseBlockOf, inputOf. now rewrite Hvalue.
    + apply IH. intros c Hc. apply Hvalid. now right.
Qed.

(** X13. A completion whose first choice has no tool call, be the field
    absent or an empty array, gives a message with the text block alone, and
    writes nothing. *)
Theorem no_tool_calls_text_only (completion : ChatCompletion.t)
    (choice : Choice.t) (rest : list Choice.t) (console : Console) :
  ChatCompletion.choices completion = choice :: rest ->
  ChatCompletionMessage.tool_calls (Choice.message choice) = None
  \/ ChatCompletionMessage.tool_calls (Choice.message choice) = Some [] ->
  exists message : Message.t,
    convertToAnthropicMessage JSON_parse completion console =
      (inr message, console)
    /\ Message.content message =
         [ TextBlock
             (match ChatCompletionMessage.content (Choice.message choice) with
              | Some text => text
              | None => ""
              end) None ].
Proof.
  intros Hchoices Hcalls.
  exists (messageOf JSON_parse completion choice).
  rewrite (convertToAnthropicMessage_run _ _ _ _ _ Hchoices).
  unfold messageOf, toolCallsOf.
  destruct Hcalls as [-> | ->]; simpl; now rewrite app_nil_r.
Qed.

End ReverseFurther.

(** * The two directions together *)

(** X14. Tool invocations survive the round trip.  When a completion carries
    the tool calls that the forward translator emitted for an assistant turn,
    and [JSON.parse] reads back what [JSON.stringify] printed for the inputs
    of that turn, the reverse translator produces, after the text block, the
    tool-invocation blocks of the turn: same ids, same names, same inputs,
    same order; and it writes nothing to the console. *)
Theorem tool_uses_round_trip
    (JSON_stringify : json -> string) (JSON_parse : string -> Exn + json)
    (blocks : list ContentBlockParam) (m : ChatCompletionMessageParam.t)
    (completion : ChatCompletion.t) (choice : Choice.t) (rest : list Choice.t)
    (console : Console) :
  convertToOpenAiMessages JSON_stringify
    [ {| MessageParam.role := "assistant";
         MessageParam.content := ContentBlocks blocks |} ] = [m] ->
  ChatCompletion.choices completion = choice :: rest ->
  ChatCompletionMessage.tool_calls (Choice.message choice) =
    ChatCompletionMessageParam.tool_calls m ->
  (forall b : ToolUseBlockParam.t,
      In b (toolUsesOf blocks) ->
      JSON_stringify (ToolUseBlockParam.input b) <> ""
      /\ JSON_parse (JSON_stringify (ToolUseBlockParam.input b)) =
           inr (ToolUseBlockParam.input b)) ->
  exists (message : Message.t) (text : string),
    convertToAnthropicMessage JSON_parse completion console =
      (inr message, console)
    /\ Message.content message =
         TextBlock text None
         :: map (fun b : ToolUseBlockParam.t =>
                   ToolUseBlock
                     (ToolUseBlockParam.id b)
                     (ToolUseBlockParam.name b)
                     (ToolUseBlockParam.input b))
              (toolUsesOf blocks).
Proof.
  intros Hforward Hchoices Hecho Hinverse.
  rewrite convertToOpenAiMessages_flat_map in Hforward.
  cbn [flat_map] in Hforward.
  rewrite app_nil_r, convertMessage_assistant in Hforward.
  injection Hforward as <-. simpl in Hecho.
  assert (Hcalls :
            toolCallsOf (Choice.message choice) =
            map (toolCallOfToolUse JSON_stringify) (toolUsesOf blocks)).
  { unfold toolCallsOf. rewrite Hecho. now destruct (toolUsesOf blocks). }
  assert (Hblocks :
            forall uses : list ToolUseBlockParam.t,
              (forall b, In b uses ->
                         JSON_stringify (ToolUseBlockParam.input b) <> ""
                         /\ JSON_parse (JSON_stringify (ToolUseBlockParam.input b)) =
                              inr (ToolUseBlockParam.input b)) ->
              map (toolUseBlockOf JSON_parse)
                (map (toolCallOfToolUse JSON_stringify) uses) =
              map (fun b : ToolUseBlockParam.t =>
                     ToolUseBlock (ToolUseBlockParam.id b) (ToolUseBlockParam.name b)
                       (ToolUseBlockParam.input b)) uses
              /\ flat_map (diagnosticsOf JSON_parse)
                   (map (toolCallOfToolUse JSON_stringify) uses) = []).
  { induction uses as [| b uses IH]; intros Huses; simpl; [now split |].
    destruct (IH (fun c Hc => Huses c (or_intror Hc))) as [-> ->].
    destruct (Huses b (or_introl eq_refl)) as [Hnonempty Hparse].
    apply String.eqb_neq in Hnonempty.
    unfold toolUseBlockOf, inputOf, diagnosticsOf, argumentsText, string_or.
    simpl. rewrite Hnonempty, Hparse. now split. }
  destruct (Hblocks _ Hinverse) as [Hmap Hquiet].
  exists (messageOf JSON_parse completion choice). eexists.
  rewrite (convertToAnthropicMessage_run _ _ _ _ _ Hchoices).
  unfold messageOf. simpl. rewrite Hcalls, Hmap, Hquiet, app_nil_r.
  now split.
Qed.

(** * Properties of the model selection *)

Section NormalizeProperties.

Variable Models : Type.
Variable Info : Type.
Variable key_in : string -> Models -> bool.
Variable index : Models -> string -> Info.
Variable bedrockEmbeddingModels : Models.
Variable openAiNativeEmbeddingModels : Models.
Variable bedrockeEmbeddingDefaultModelId : string.
Variable openAiNativeEmbeddingDefaultModelId : string.

#[local] Abbreviation normalize :=
  (Embedding.normalizeEmbeddingConfiguration Models Info key_in index
     bedrockEmbeddingModels openAiNativeEmbeddingModels
     bedrockeEmbeddingDefaultModelId openAiNativeEmbeddingDefaultModelId).

#[local] Abbreviation providerData :=
  (Embedding.getProviderData Models Info key_in index).

(** The table and the default id that go with a provider. *)
Lemma normalize_by_provider
    (embeddingConfiguration : option Embedding.EmbeddingConfiguration) :
  exists provider : string,
    provider <> ""
    /\ provider =
         optional_string_or (Embedding.optional_provider embeddingConfiguration)
           "openai-native"
    /\ normalize embeddingConfiguration =
         providerData provider
           (Embedding.optional_modelId embeddingConfiguration)
           (if String.eqb provider "bedrock"
            then bedrockEmbeddingModels else openAiNativeEmbeddingModels)
           (if String.eqb provider "bedrock"
            then bedrockeEmbeddingDefaultModelId
            else openAiNativeEmbeddingDefaultModelId).
Proof.
  eexists. split; [| split; [reflexivity |]].
  - unfold optional_string_or, string_or.
    destruct embeddingConfiguration as [[[provider |] ? ? ? ? ? ? ? ? ? ?] |];
      simpl; try discriminate.
    destruct (String.eqb_spec provider ""); [discriminate | assumption].
  - unfold Embedding.normalizeEmbeddingConfiguration.
    destruct (String.eqb _ "bedrock"); [reflexivity |].
    destruct (String.eqb _ "openai-native"); [reflexivity |].
    destruct (String.eqb _ "openai"); reflexivity.
Qed.

Lemma providerData_provider (provider : string) (modelId : option string)
    (models : Models) (defaultId : string) :
  Embedding.selectedProvider (providerData provider modelId models defaultId) =
  provider.
Proof.
  unfold Embedding.getProviderData.
  destruct modelId as [id |]; [| reflexivity].
  destruct (negb (String.eqb id "") && key_in id models); reflexivity.
Qed.

Lemma providerData_again (provider : string) (modelId : option string)
    (models : Models) (defaultId : string) :
  providerData provider
    (Some (Embedding.selectedModelId
             (providerData provider modelId models defaultId)))
    models defaultId =
  providerData provider modelId models defaultId.
Proof.
  unfold Embedding.getProviderData.
  destruct modelId as [id |].
  - destruct (negb (String.eqb id "") && key_in id models) eqn:Hid; simpl.
    + now rewrite Hid.
    + now destruct (negb (String.eqb defaultId "") && key_in defaultId models).
  - simpl.
    now destruct (negb (String.eqb defaultId "") && key_in defaultId models).
Qed.

(** X15. Normalising is idempotent through the component's write-back: once
    the selected provider and model id are stored in the configuration,
    normalising that configuration selects the same provider, model id and
    model information again; and writing this second selection back leaves
    the configuration as it is. *)
Theorem normalize_write_back_stable
    (embeddingConfiguration : option Embedding.EmbeddingConfiguration) :
  let stored :=
    Embedding.withSelection embeddingConfiguration
      (normalize embeddingConfiguration) in
  normalize (Some stored) = normalize embeddingConfiguration
  /\ Embedding.withSelection (Some stored) (normalize (Some stored)) = stored.
Proof.
  assert (Hstable :
            normalize
              (Some (Embedding.withSelection embeddingConfiguration
                       (normalize embeddingConfiguration))) =
            normalize embeddingConfiguration).
  { destruct (normalize_by_provider embeddingConfiguration)
      as (provider & Hnonempty & _ & Hfirst).
    destruct (normalize_by_provider
                (Some (Embedding.withSelection embeddingConfiguration
                         (normalize embeddingConfiguration))))
      as (provider' & _ & Hprovider' & Hsecond).
    cbn [Embedding.withSelection Embedding.provider Embedding.modelId
           Embedding.optional_provider Embedding.optional_modelId
           optional_string_or] in Hprovider', Hsecond.
    rewrite Hfirst, providerData_provider in Hprovider'.
    unfold string_or in Hprovider'.
    apply String.eqb_neq in Hnonempty. rewrite Hnonempty in Hprovider'.
    subst provider'.
    rewrite Hsecond, Hfirst. apply providerData_again. }
  split; [exact Hstable |].
  rewrite Hstable. reflexivity.
Qed.


(** X17. The selected provider is never the empty string: it is the
    configured provider when there is one that is not empty, and
    "openai-native" when the configuration or its provider is absent or
    empty. *)
Theorem selected_provider_never_empty
    (embeddingConfiguration : option Embedding.EmbeddingConfiguration) :
  Embedding.selectedProvider (normalize embeddingConfiguration) <> ""
  /\ (forall provider : string,
         Embedding.optional_provider embeddingConfiguration = Some provider ->
         provider <> "" ->
         Embedding.selectedProvider (normalize embeddingConfiguration) = provider)
  /\ (Embedding.optional_provider embeddingConfiguration = None
       \/ Embedding.optional_provider embeddingConfiguration = Some "" ->
       Embedding.selectedProvider (normalize embeddingConfiguration) =
       "openai-native").
Proof.
  destruct (normalize_by_provider embeddingConfiguration)
    as (provider & Hnonempty & Hprovider & ->).
  rewrite providerData_provider.
  split; [exact Hnonempty |]. split.
  - intros configured Hconfigured Hconfigured_nonempty.
    rewrite Hprovider, Hconfigured. simpl. unfold string_or.
    apply String.eqb_neq in Hconfigured_nonempty.
    now rewrite Hconfigured_nonempty.
  - intros [Habsent | Hempty]; rewrite Hprovider.
    + now rewrite Habsent.
    + now rewrite Hempty.
Qed.

(** X18. Every provider but "bedrock" is served by the OpenAI table: two
    configurations that ask for the same model id, neither being for
    "bedrock", get the same model id and the same model information, whatever
    their providers ("openai", "openai-native", none, or an unknown one). *)
Theorem providers_share_openai_table
    (first second : option Embedding.EmbeddingConfiguration) :
  Embedding.optional_modelId first = Embedding.optional_modelId second ->
  Embedding.selectedProvider (normalize first) <> "bedrock" ->
  Embedding.selectedProvider (normalize second) <> "bedrock" ->
  Embedding.selectedModelId (normalize first) =
    Embedding.selectedModelId (normalize second)
  /\ Embedding.selectedModelInfo (normalize first) =
       Embedding.selectedModelInfo (normalize second).
Proof.
  intros Hsame.
  destruct (normalize_by_provider first) as (provider1 & _ & _ & ->).
  destruct (normalize_by_provider second) as (provider2 & _ & _ & ->).
  rewrite !providerData_provider, Hsame.
  intros Hfirst Hsecond.
  apply String.eqb_neq in Hfirst, Hsecond. rewrite Hfirst, Hsecond.
  unfold Embedding.getProviderData.
  destruct (Embedding.optional_modelId second) as [id |]; [| now split].
  destruct (negb (String.eqb id "") && key_in id openAiNativeEmbeddingModels);
    now split.
Qed.

End NormalizeProperties.

(** * The further properties on the sample inputs *)

(** X4 on the first tool turn of the translated sample conversation. *)
Lemma emitted_fields_match_role_witness :
  In MoreSamples.tool_turn
    (convertToOpenAiMessages JSON.stringify Sample.conversation)
  /\ ChatCompletionMessageParam.role MoreSamples.tool_turn = "tool"
  /\ ChatCompletionMessageParam.tool_calls MoreSamples.tool_turn = None.
Proof.
  assert (Hin : In MoreSamples.tool_turn
                  (convertToOpenAiMessages JSON.stringify Sample.conversation))
    by (vm_compute; right; right; left; reflexivity).
  destruct (emitted_fields_match_role JSON.stringify _ _ Hin) as [Htool _].
  destruct (Htool "toolu_1" eq_refl) as (Hrole & Hcalls & _).
  exact (conj Hin (conj Hrole Hcalls)).
Defined.

(** X5 on the last turn of the translated sample conversation. *)
Lemma content_parts_never_empty_witness :
  In MoreSamples.user_turn
    (convertToOpenAiMessages JSON.stringify Sample.conversation)
  /\ ChatCompletionMessageParam.role MoreSamples.user_turn = "user"
  /\ MoreSamples.user_parts <> [].
Proof.
  assert (Hin : In MoreSamples.user_turn
                  (convertToOpenAiMessages JSON.stringify Sample.conversation))
    by (vm_compute; do 4 right; left; reflexivity).
  exact (conj Hin
           (content_parts_never_empty JSON.stringify _ _
              MoreSamples.user_parts Hin eq_refl)).
Defined.

(** X6 on a user turn whose only block is a tool result without content. *)
Lemma tool_result_string_or_missing_witness :
  convertToOpenAiMessages JSON.stringify
    [ {| MessageParam.role := "user";
         MessageParam.content :=
           ContentBlocks
             [ ToolResult
                 {| ToolResultBlockParam.tool_use_id := "toolu_9";
                    ToolResultBlockParam.content := None |} ] |} ] =
  [ {| ChatCompletionMessageParam.role := "tool";
       ChatCompletionMessageParam.content := Some (ContentString "");
       ChatCompletionMessageParam.tool_calls := None;
       ChatCompletionMessageParam.tool_call_id := Some "toolu_9" |} ].
Proof.
  exact (tool_result_string_or_missing JSON.stringify [] [] [] [] "toolu_9"
           None "" (or_intror (or_introl (conj eq_refl eq_refl)))).
Defined.

(** X8 on the sample completion with four tool calls. *)
Lemma message_shape_witness :
  exists (message : Message.t) (console' : Console),
    convertToAnthropicMessage JSON.parse Sample.completion [] =
      (inr message, console')
    /\ Message.type message = "message"
    /\ Message.stop_sequence message = None
    /\ List.length (Message.content message) = 5%nat.
Proof.
  destruct (message_shape JSON.parse Sample.completion _ _ [] eq_refl)
    as (message & console' & blocks & Hrun & _ & Htype & _ & Hstop
        & Hcontent & Hblocks).
  exists message, console'.
  repeat split; try assumption.
  rewrite Hcontent. simpl. now rewrite <- (Forall2_length Hblocks).
Defined.

(** X10 on a completion without choices. *)
Lemma throws_only_without_choice_witness :
  convertToAnthropicMessage JSON.parse MoreSamples.no_choice [] =
  (inl (TypeError "Cannot read properties of undefined"), []).
Proof.
  exact (proj1 (throws_only_without_choice JSON.parse MoreSamples.no_choice [])
           eq_refl).
Defined.

(** X11 on a completion that reports 0 prompt tokens and 7 completion
    tokens. *)
Lemma usage_passes_through_witness :
  exists (message : Message.t) (console' : Console),
    convertToAnthropicMessage JSON.parse MoreSamples.valid_completion [] =
      (inr message, console')
    /\ Usage.input_tokens (Message.usage message) = 0%Z
    /\ Usage.output_tokens (Message.usage message) = 7%Z.
Proof.
  exact (usage_passes_through JSON.parse MoreSamples.valid_completion _ _ _ []
           eq_refl eq_refl).
Defined.

(** X12 on a completion whose two tool calls carry valid JSON. *)
Lemma valid_arguments_silent_witness :
  exists (message : Message.t) (text : string) (blocks : list ContentBlock),
    convertToAnthropicMessage JSON.parse MoreSamples.valid_completion [] =
      (inr message, [])
    /\ Message.content message = TextBlock text None :: blocks
    /\ List.length blocks = 2%nat.
Proof.
  assert (Hvalid :
            forall call,
              In call
                [ Sample.toolCall "call_1" Sample.path_arguments;
                  Sample.toolCall "call_2" "[1, 2]" ] ->
              exists value, JSON.parse (argumentsText call) = inr value).
  { intros call [<- | [<- | []]]; eexists; vm_compute; reflexivity. }
  destruct (valid_arguments_silent JSON.parse MoreSamples.valid_completion
              _ _ [] eq_refl Hvalid)
    as (message & text & blocks & Hrun & Hcontent & Hblocks).
  exists message, text, blocks.
  repeat split; try assumption.
  now rewrite <- (Forall2_length Hblocks).
Defined.

(** X13 on the sample completion with plain text. *)
Lemma no_tool_calls_text_only_witness :
  exists message : Message.t,
    convertToAnthropicMessage JSON.parse Sample.text_completion [] =
      (inr message, [])
    /\ Message.content message = [ TextBlock "Hello" None ].
Proof.
  exact (no_tool_calls_text_only JSON.parse Sample.text_completion _ _ []
           eq_refl (or_introl eq_refl)).
Defined.

(** X14 on the assistant turn of the sample conversation and a completion
    that echoes its tool calls. *)
Lemma tool_uses_round_trip_witness :
  exists (message : Message.t) (text : string),
    convertToAnthropicMessage JSON.parse MoreSamples.echo_completion [] =
      (inr message, [])
    /\ Message.content message =
         [ TextBlock text None;
           ToolUseBlock "toolu_1" "read_file" (JObject [("path", JString "a.txt")]);
           ToolUseBlock "toolu_2" "read_file" (JObject []) ].
Proof.
  assert (Hinverse :
            forall b : ToolUseBlockParam.t,
              In b (toolUsesOf MoreSamples.assistant_blocks) ->
              JSON.stringify (ToolUseBlockParam.input b) <> ""
              /\ JSON.parse (JSON.stringify (ToolUseBlockParam.input b)) =
                   inr (ToolUseBlockParam.input b)).
  { intros b [<- | [<- | []]]; split;
      try (vm_compute; discriminate); vm_compute; reflexivity. }
  exact (tool_uses_round_trip JSON.stringify JSON.parse
           MoreSamples.assistant_blocks _ MoreSamples.echo_completion _ _ []
           eq_refl eq_refl eq_refl Hinverse).
Defined.


(** X18 on the sample tables: the provider "openai" and no provider select
    the same model. *)
Lemma providers_share_openai_table_witness :
  Embedding.selectedModelId
    (Embedding.Tables.normalize (Some Embedding.Tables.compatible)) =
  Embedding.selectedModelId
    (Embedding.Tables.normalize (Some Embedding.Tables.unspecified))
  /\ Embedding.selectedModelInfo
       (Embedding.Tables.normalize (Some Embedding.Tables.compatible)) =
     Embedding.selectedModelInfo
       (Embedding.Tables.normalize (Some Embedding.Tables.unspecified)).
Proof.
  apply (providers_share_openai_table
           Embedding.Tables.Models (option nat)
           Embedding.Tables.key_in Embedding.Tables.index
           Embedding.Tables.bedrock Embedding.Tables.openAiNative
           "amazon.titan-embed-text-v1" "text-embedding-3-small"
           (Some Embedding.Tables.compatible) (Some Embedding.Tables.unspecified)
           eq_refl);
    vm_compute; discriminate.
Defined.
